(** * D365Connector: OBO token broker and downstream CRUD proxy

    A shallow embedding of [core/D365Connector.ts] and of the two record
    routes of [routes/d365Routes.ts], followed by the properties of the
    validator, the token cache, the CRUD proxy, the auth middleware and the
    OData escaping helper.

    JavaScript strings are modelled as [string]; the header and token
    strings handled here are sequences of one-byte code units (Node decodes
    header values as latin1).  Numbers that the code treats as integer
    seconds, milliseconds or HTTP statuses are [Z] or [N]. *)

From Stdlib Require Import ZArith NArith List Ascii String Lia Bool.
From stdpp Require Import base gmap strings pretty.

Set Warnings "-register-all".
Local Open Scope string_scope.
Local Open Scope Z_scope.

(** ** JavaScript string helpers used by the connector *)

Module Js.

(** [value.replace(/c/g, rep)] for a one-character pattern [c] and a
    replacement [rep] without [$] patterns: every occurrence, left to
    right, is replaced; the characters in between are copied. *)
Fixpoint replaceAllChar (c : ascii) (rep : string) (value : string) : string :=
  match value with
  | EmptyString => EmptyString
  | String x rest =>
      if Ascii.eqb x c
      then rep +:+ replaceAllChar c rep rest
      else String x (replaceAllChar c rep rest)
  end.

(** [s.replace(/\/$/, "")]: one trailing slash, if any, is removed. *)
Fixpoint stripTrailingSlash (s : string) : string :=
  match s with
  | EmptyString => EmptyString
  | String x rest =>
      match rest with
      | EmptyString => if Ascii.eqb x "/" then EmptyString else s
      | String _ _ => String x (stripTrailingSlash rest)
      end
  end.

(** [pathname.startsWith(p)] *)
Definition startsWith (p s : string) : bool := String.prefix p s.

(** [arr.includes(x)] on an array of strings *)
Fixpoint includes (arr : list string) (x : string) : bool :=
  match arr with
  | [] => false
  | y :: ys => if String.eqb y x then true else includes ys x
  end.

(** [env || dflt] where [env] is [string | undefined]: [undefined] and the
    empty string are falsy. *)
Definition orElse (v : option string) (dflt : string) : string :=
  match v with
  | Some s => if String.eqb s "" then dflt else s
  | None => dflt
  end.

(** Truthiness of a string value. *)
Definition truthy (s : string) : bool := negb (String.eqb s "").

(** [String(v)] where [v] is [string | undefined]. *)
Definition String_ (v : option string) : string :=
  match v with
  | Some s => s
  | None => "undefined"
  end.

(** Template interpolation of a non-negative integer. *)
Definition showN (n : N) : string := pretty n.

End Js.

(** ** Data model *)

(** A decoded JSON value ([any] in the source). *)
Inductive Json :=
| JNull
| JBool (b : bool)
| JNum (z : Z)
| JStr (s : string)
| JArr (items : list Json)
| JObj (fields : list (string * Json)).

(** What a rejected promise or a [throw] carries. *)
Inductive JsError :=
| Reason (s : string)      (* [Promise.reject("...")] *)
| ErrorMsg (msg : string)  (* [throw new Error(msg)] *)
| Foreign (name : string). (* raised inside a library call *)

Inductive Outcome (A : Type) :=
| Resolved (a : A)
| Rejected (e : JsError).
Arguments Resolved {A} a.
Arguments Rejected {A} e.

(** The two remote key sets of the registry. *)
Inductive KeySet := JwksV2 | JwksV1.

(** The claims of a verified token; the connector inspects [iss] only. *)
Record Payload := { iss : option string; sub : option string }.

Inductive VerifyResult :=
| Verified (payload : Payload)
| VerifyThrows (name : string).

(** An entry of [oboCache]. *)
Record CacheEntry := { accessToken : string; expiresAt : Z }.

(** The body of a token-endpoint reply at its asserted type
    [{ access_token: string; expires_in: number }]; an absent [expires_in]
    reads as [undefined]. *)
Record TokenJson := { access_token : string; expires_in : option Z }.

(** A [fetch] response: [json] is [None] when [resp.json()] rejects. *)
Record Response (B : Type) := { status : N; text : string; json : option B }.
Arguments status {B} r.
Arguments text {B} r.
Arguments json {B} r.

(** [resp.ok]: the status is in the range 200 to 299. *)
Definition ok {B} (r : Response B) : bool :=
  ((200 <=? status r) && (status r <=? 299))%N.

Inductive FetchResult (B : Type) :=
| Fetched (r : Response B)
| FetchFails (name : string).
Arguments Fetched {B} r.
Arguments FetchFails {B} name.

(** [RequestInit] as the connector uses it. *)
Record RequestInit := {
  method : string;
  headers : list (string * string);
  body : option string
}.

(** The value of [req.headers["authorization"]]. *)
Inductive HeaderValue :=
| Absent
| Single (s : string)
| Multi (l : list string).

(** ** Effects

    An [async] function is a tree of actions.  [Do] nodes are synchronous
    effects on the connector's fields, the clock, the console and the
    Express response; [Await] nodes are the network boundaries where the
    task is suspended. *)

Inductive SyncAction :=
| DateNow                                    (* [Date.now()] *)
| ReadUserToken                              (* [this.userToken] *)
| WriteUserToken (t : string)                (* [this.userToken = t] *)
| CacheGet (k : string)                      (* [this.oboCache.get(k)] *)
| CacheSet (k : string) (v : CacheEntry)     (* [this.oboCache.set(k, v)] *)
| ConsoleError (msg : string) (extra : option string)
| Respond (code : N) (payload : Json)        (* [res.status(code).json(payload)] *)
| Next (store : option string).              (* [next()], with the active request store *)

Definition SyncResult (a : SyncAction) : Type :=
  match a with
  | DateNow => Z
  | ReadUserToken => string
  | CacheGet _ => option CacheEntry
  | _ => unit
  end.

Inductive AsyncAction :=
| JwtVerify (token : string) (keys : KeySet) (audience : string)
| FetchToken (url : string) (params : list (string * string))
| FetchFo (url : string) (init : RequestInit).

Definition AsyncResult (a : AsyncAction) : Type :=
  match a with
  | JwtVerify _ _ _ => VerifyResult
  | FetchToken _ _ => FetchResult TokenJson
  | FetchFo _ _ => FetchResult Json
  end.

Inductive Prog (A : Type) : Type :=
| Ret (a : A)
| Throw (e : JsError)
| Do (a : SyncAction) (k : SyncResult a -> Prog A)
| Await (a : AsyncAction) (k : AsyncResult a -> Prog A).
Arguments Ret {A} a.
Arguments Throw {A} e.
Arguments Do {A} a k.
Arguments Await {A} a k.

Fixpoint bind {A B} (p : Prog A) (f : A -> Prog B) : Prog B :=
  match p with
  | Ret a => f a
  | Throw e => Throw e
  | Do a k => Do a (fun r => bind (k r) f)
  | Await a k => Await a (fun r => bind (k r) f)
  end.

(** [try { p } catch (e) { h e }] *)
Fixpoint tryCatch {A} (p : Prog A) (h : JsError -> Prog A) : Prog A :=
  match p with
  | Ret a => Ret a
  | Throw e => h e
  | Do a k => Do a (fun r => tryCatch (k r) h)
  | Await a k => Await a (fun r => tryCatch (k r) h)
  end.

Definition do (a : SyncAction) : Prog (SyncResult a) := Do a Ret.
Definition await (a : AsyncAction) : Prog (AsyncResult a) := Await a Ret.

Declare Scope prog_scope.
Delimit Scope prog_scope with prog.
Notation "x <- p ;; q" := (bind p (fun x => q))
  (at level 100, p at next level, right associativity) : prog_scope.
Notation "p ;; q" := (bind p (fun _ => q))
  (at level 100, right associativity) : prog_scope.
Local Open Scope prog_scope.

(** ** The world the connector runs in *)

(** What an outside observer sees of a run, oldest first. *)
Inductive Obs :=
| ONet (a : AsyncAction)
| OConsole (msg : string) (extra : option string)
| OResponse (code : N) (payload : Json)
| ONext (store : option string).

Record World := {
  clock : Z;                              (* milliseconds since the epoch *)
  userToken : string;                     (* [D365Connector.userToken] *)
  oboCache : gmap string CacheEntry;      (* [D365Connector.oboCache] *)
  trace : list Obs
}.

(** The remote parties: each answer may depend on what happened before. *)
Record Network := {
  jwks : list Obs -> string -> KeySet -> string -> VerifyResult;
  tokenEndpoint : list Obs -> string -> list (string * string) -> FetchResult TokenJson;
  foEndpoint : list Obs -> string -> RequestInit -> FetchResult Json
}.

Definition log (o : Obs) (w : World) : World :=
  {| clock := clock w; userToken := userToken w; oboCache := oboCache w;
     trace := trace w ++ [o] |}.

Definition writeUserToken (t : string) (w : World) : World :=
  {| clock := clock w; userToken := t; oboCache := oboCache w; trace := trace w |}.

Definition cacheSet (k : string) (v : CacheEntry) (w : World) : World :=
  {| clock := clock w; userToken := userToken w;
     oboCache := <[k := v]> (oboCache w); trace := trace w |}.

(** Time passing between two tasks. *)
Definition atTime (t : Z) (w : World) : World :=
  {| clock := t; userToken := userToken w; oboCache := oboCache w; trace := trace w |}.

Definition performSync (a : SyncAction) (w : World) : SyncResult a * World :=
  match a return SyncResult a * World with
  | DateNow => (clock w, w)
  | ReadUserToken => (userToken w, w)
  | WriteUserToken t => (tt, writeUserToken t w)
  | CacheGet k => (oboCache w !! k, w)
  | CacheSet k v => (tt, cacheSet k v w)
  | ConsoleError msg extra => (tt, log (OConsole msg extra) w)
  | Respond code payload => (tt, log (OResponse code payload) w)
  | Next store => (tt, log (ONext store) w)
  end.

Definition answer (net : Network) (a : AsyncAction) (history : list Obs) : AsyncResult a :=
  match a return AsyncResult a with
  | JwtVerify token keys audience => jwks net history token keys audience
  | FetchToken url params => tokenEndpoint net history url params
  | FetchFo url init => foEndpoint net history url init
  end.

(** A task run to completion with no other task in between. *)
Fixpoint run {A} (net : Network) (p : Prog A) (w : World) : Outcome A * World :=
  match p with
  | Ret a => (Resolved a, w)
  | Throw e => (Rejected e, w)
  | Do a k => let rw := performSync a w in run net (k (fst rw)) (snd rw)
  | Await a k => run net (k (answer net a (trace w))) (log (ONet a) w)
  end.

(** A task run up to its next suspension point. *)
Inductive Suspended (A : Type) : Type :=
| Settled (o : Outcome A)
| Pending (a : AsyncAction) (k : AsyncResult a -> Prog A).
Arguments Settled {A} o.
Arguments Pending {A} a k.

Fixpoint runSync {A} (p : Prog A) (w : World) : Suspended A * World :=
  match p with
  | Ret a => (Settled (Resolved a), w)
  | Throw e => (Settled (Rejected e), w)
  | Do a k => let rw := performSync a w in runSync (k (fst rw)) (snd rw)
  | Await a k => (Pending a k, log (ONet a) w)
  end.

(** ** The [Headers] object and the bearer pattern *)

Module Headers.

Definition lowerChar (c : ascii) : ascii :=
  let n := N_of_ascii c in
  if ((65 <=? n) && (n <=? 90))%N then ascii_of_N (n + 32) else c.

Fixpoint lower (s : string) : string :=
  match s with
  | EmptyString => EmptyString
  | String c rest => String (lowerChar c) (lower rest)
  end.

(** The [Headers] class of the Fetch standard over its header list, a list
    of name-value pairs.  A name is a token; a value is normalised by
    stripping its leading and trailing HTTP whitespace and may then hold no
    NUL, LF or CR.  The methods throw [TypeError] on an invalid name or
    value: [None] below.  Names match without regard to ASCII case.  On
    strings of one-byte code units the conversion of a name or a value to
    a byte string cannot fail. *)

(** HTTP whitespace: TAB, LF, CR, space. *)
Definition isHttpWhitespace (c : ascii) : bool :=
  let n := N_of_ascii c in
  ((n =? 9) || (n =? 10) || (n =? 13) || (n =? 32))%N.

Fixpoint stripLeading (s : string) : string :=
  match s with
  | EmptyString => EmptyString
  | String c rest => if isHttpWhitespace c then stripLeading rest else s
  end.

Fixpoint stripTrailing (s : string) : string :=
  match s with
  | EmptyString => EmptyString
  | String c rest =>
      match stripTrailing rest with
      | EmptyString => if isHttpWhitespace c then EmptyString else String c EmptyString
      | String c' rest' => String c (String c' rest')
      end
  end.

Definition normalize (value : string) : string := stripTrailing (stripLeading value).

(** The characters of a token: letters, digits and [!#$%&'*+-.^_`|~]. *)
Definition isTokenChar (c : ascii) : bool :=
  let n := N_of_ascii c in
  (((48 <=? n) && (n <=? 57)) || ((65 <=? n) && (n <=? 90)) || ((97 <=? n) && (n <=? 122))
   || (n =? 33) || ((35 <=? n) && (n <=? 39)) || (n =? 42) || (n =? 43) || (n =? 45)
   || (n =? 46) || ((94 <=? n) && (n <=? 96)) || (n =? 124) || (n =? 126))%N.

Fixpoint allToken (s : string) : bool :=
  match s with
  | EmptyString => true
  | String c rest => isTokenChar c && allToken rest
  end.

Definition validName (name : string) : bool :=
  match name with
  | EmptyString => false
  | String _ _ => allToken name
  end.

Fixpoint validValue (value : string) : bool :=
  match value with
  | EmptyString => true
  | String c rest =>
      let n := N_of_ascii c in
      negb ((n =? 0) || (n =? 10) || (n =? 13))%N && validValue rest
  end.

Definition sameName (n m : string) : bool := String.eqb (lower n) (lower m).

(** The values of the headers of a list that bear a name, in order. *)
Fixpoint values (name : string) (hs : list (string * string)) : list string :=
  match hs with
  | [] => []
  | (n, v) :: rest => if sameName n name then v :: values name rest else values name rest
  end.

Fixpoint join (vs : list string) : string :=
  match vs with
  | [] => EmptyString
  | v :: rest =>
      match rest with
      | [] => v
      | _ :: _ => v +:+ ", " +:+ join rest
      end
  end.

(** Getting a name from a header list: [null] when no header bears it, else
    the values of those that do, joined by a comma and a space. *)
Definition getFrom (name : string) (hs : list (string * string)) : option string :=
  match values name hs with
  | [] => None
  | v :: vs => Some (join (v :: vs))
  end.

Fixpoint firstName (name : string) (hs : list (string * string)) : option string :=
  match hs with
  | [] => None
  | (n, _) :: rest => if sameName n name then Some n else firstName name rest
  end.

(** Appending to a header list: the spelling of the first header of that
    name, if any, is reused. *)
Definition appendTo (name value : string) (hs : list (string * string))
  : list (string * string) :=
  hs ++ [(match firstName name hs with Some n => n | None => name end, value)].

Fixpoint removeAll (name : string) (hs : list (string * string)) : list (string * string) :=
  match hs with
  | [] => []
  | (n, v) :: rest =>
      if sameName n name then removeAll name rest else (n, v) :: removeAll name rest
  end.

(** Setting in a header list: the first header of that name takes the
    value and the others are removed; without one the pair is appended. *)
Fixpoint setIn (name value : string) (hs : list (string * string))
  : list (string * string) :=
  match hs with
  | [] => [(name, value)]
  | (n, v) :: rest =>
      if sameName n name then (n, value) :: removeAll name rest
      else (n, v) :: setIn name value rest
  end.

(** [headers.append(name, value)] *)
Definition append (name value : string) (hs : list (string * string))
  : option (list (string * string)) :=
  let value := normalize value in
  if validName name && validValue value then Some (appendTo name value hs) else None.

(** [headers.set(name, value)] *)
Definition set (name value : string) (hs : list (string * string))
  : option (list (string * string)) :=
  let value := normalize value in
  if validName name && validValue value then Some (setIn name value hs) else None.

(** [headers.get(name)] *)
Definition get (name : string) (hs : list (string * string)) : option (option string) :=
  if validName name then Some (getFrom name hs) else None.

(** [new Headers(init)] for an [init] given as pairs: each is appended. *)
Fixpoint fill (init hs : list (string * string)) : option (list (string * string)) :=
  match init with
  | [] => Some hs
  | (n, v) :: rest =>
      match append n v hs with
      | Some hs' => fill rest hs'
      | None => None
      end
  end.

Definition new (init : list (string * string)) : option (list (string * string)) :=
  fill init [].

End Headers.

Module BearerPattern.

(** [\s] on one-byte code units: TAB, LF, VT, FF, CR, space, NBSP. *)
Definition isSpace (c : ascii) : bool :=
  let n := N_of_ascii c in
  (((9 <=? n) && (n <=? 13)) || (n =? 32) || (n =? 160))%N.

(** [.] matches everything but a line terminator. *)
Definition isDot (c : ascii) : bool :=
  let n := N_of_ascii c in
  negb ((n =? 10) || (n =? 13))%N.

(** [(.+)$]: the whole remaining input, non-empty, without line terminators. *)
Fixpoint dots (s : string) : bool :=
  match s with
  | EmptyString => true
  | String c rest => isDot c && dots rest
  end.

Definition dotPlusEnd (s : string) : bool :=
  match s with
  | EmptyString => false
  | String _ _ => dots s
  end.

(** [\s+(.+)$] with greedy [\s+]: a longer run of blanks is tried first,
    and the matcher backs off one blank at a time. *)
Fixpoint spacesThenToken (s : string) : option string :=
  match s with
  | EmptyString => None
  | String c rest =>
      if isSpace c then
        match spacesThenToken rest with
        | Some token => Some token
        | None => if dotPlusEnd rest then Some rest else None
        end
      else None
  end.

(** The literal [Bearer] under the [i] flag. *)
Fixpoint literal (lit s : string) : option string :=
  match lit, s with
  | EmptyString, _ => Some s
  | String a lit', String b s' =>
      if Ascii.eqb (Headers.lowerChar a) (Headers.lowerChar b)
      then literal lit' s' else None
  | String _ _, EmptyString => None
  end.

(** [/^Bearer\s+(.+)$/i.exec(auth)]: the first capture group of a match. *)
Definition exec (auth : string) : option string :=
  match literal "Bearer" auth with
  | Some rest => spacesThenToken rest
  | None => None
  end.

End BearerPattern.

(** ** The host: environment variables and platform functions *)

Record ProcessEnv := {
  env_TENANT_ID : option string;
  env_API_EAS_CLIENT_ID : option string;
  env_API_EAS_CLIENT_SECRET : option string;
  env_FO_URL : option string;
  env_API_EXPECTED_AUDIENCE : option string
}.

(** [sha256_hex s] is [crypto.createHash("sha256").update(s).digest("hex")]. *)
Record Host := {
  env : ProcessEnv;
  sha256_hex : string -> string;
  JSON_stringify : Json -> string
}.

(** [error.message]: a string reason has none. *)
Definition message (e : JsError) : option string :=
  match e with
  | Reason _ => None
  | ErrorMsg m => Some m
  | Foreign n => Some n
  end.

Definition describe (e : JsError) : string :=
  match e with
  | Reason s => s
  | ErrorMsg m => "Error: " +:+ m
  | Foreign n => n
  end.

(** [json.expires_in || dflt]: [undefined] and [0] are falsy. *)
Definition numOr (v : option Z) (dflt : Z) : Z :=
  match v with
  | Some z => if z =? 0 then dflt else z
  | None => dflt
  end.

(** Reading a body: [await resp.text()] is the [text] field of the response
    and [await resp.json()] its [json] field, rejecting when the body is not
    JSON. *)
Definition readJson {B} (r : Response B) : Prog B :=
  match json r with
  | Some b => Ret b
  | None => Throw (Foreign "SyntaxError")
  end.

(** [await fetch(...)]: a transport failure rejects. *)
Definition fetched {B} (r : FetchResult B) : Prog (Response B) :=
  match r with
  | Fetched resp => Ret resp
  | FetchFails name => Throw (Foreign name)
  end.

(** A platform call that throws [TypeError] when it has no result. *)
Definition typeError {B} (r : option B) : Prog B :=
  match r with
  | Some b => Ret b
  | None => Throw (Foreign "TypeError")
  end.

Module D365Connector.
Section WithHost.

Variable h : Host.

Definition TENANT_ID : string := Js.orElse (env_TENANT_ID (env h)) "".
Definition API_EAS_CLIENT_ID : string := Js.orElse (env_API_EAS_CLIENT_ID (env h)) "".
Definition API_EAS_CLIENT_SECRET : string := Js.orElse (env_API_EAS_CLIENT_SECRET (env h)) "".
Definition FO_URL : string := Js.stripTrailingSlash (Js.orElse (env_FO_URL (env h)) "").
Definition API_EXPECTED_AUDIENCE : string :=
  Js.orElse (env_API_EXPECTED_AUDIENCE (env h)) ("api://" +:+ API_EAS_CLIENT_ID).

Definition ISSUER_V2 : string := "https://login.microsoftonline.com/" +:+ TENANT_ID +:+ "/v2.0".
Definition ISSUER_V1 : string := "https://sts.windows.net/" +:+ TENANT_ID +:+ "/".

Definition getCurrentContext : Prog string := do ReadUserToken.

Definition setToken (token : string) : Prog unit := do (WriteUserToken token).

Definition jwtVerify (token : string) (keys : KeySet) (audience : string) : Prog Payload :=
  r <- await (JwtVerify token keys audience) ;;
  match r with
  | Verified payload => Ret payload
  | VerifyThrows name => Throw (Foreign name)
  end.

Definition issuerAllowed (payload : Payload) : bool :=
  Js.includes [ISSUER_V2; ISSUER_V1] (Js.String_ (iss payload)).

(** The [try] block either returns from the function ([Some]) or falls
    through ([None]); its [catch] is empty. *)
Definition validateInboundJwt (token : string) : Prog Payload :=
  early <- tryCatch
             (result <- jwtVerify token JwksV2 API_EXPECTED_AUDIENCE ;;
              if issuerAllowed result then Ret (Some result) else Ret None)
             (fun _ => Ret None) ;;
  match early with
  | Some payload => Ret payload
  | None =>
      result <- jwtVerify token JwksV1 API_EXPECTED_AUDIENCE ;;
      if issuerAllowed result then Ret result
      else Throw (Reason "Unexpected issuer")
  end.

Definition cacheKey (assertionJwt : string) : string :=
  sha256_hex h (assertionJwt +:+ "|" +:+ FO_URL).

(** [cached && cached.expiresAt - 60 > now] *)
Definition usable (cached : option CacheEntry) (now : Z) : bool :=
  match cached with
  | Some c => now <? expiresAt c - 60
  | None => false
  end.

Definition tokenUrl : string :=
  "https://login.microsoftonline.com/" +:+ TENANT_ID +:+ "/oauth2/v2.0/token".

(** The entries of the [URLSearchParams] whose [toString()] is the body. *)
Definition oboParams (assertionJwt : string) : list (string * string) :=
  [ ("client_id", API_EAS_CLIENT_ID);
    ("client_secret", API_EAS_CLIENT_SECRET);
    ("grant_type", "urn:ietf:params:oauth:grant-type:jwt-bearer");
    ("requested_token_use", "on_behalf_of");
    ("scope", FO_URL +:+ "/.default");
    ("assertion", assertionJwt) ].

Definition getFoAccessTokenFromObo (assertionJwt : string) : Prog string :=
  let cacheKey := cacheKey assertionJwt in
  cached <- do (CacheGet cacheKey) ;;
  ms <- do DateNow ;;
  let now := ms / 1000 in
  let exchange : Prog string :=
    let params := oboParams assertionJwt in
    r <- await (FetchToken tokenUrl params) ;;
    tokenResp <- fetched r ;;
    if negb (ok tokenResp) then
      let errorText := text tokenResp in
      Throw (Reason ("OBO token exchange failed: " +:+ Js.showN (status tokenResp)
                     +:+ " " +:+ errorText))
    else
      json <- readJson tokenResp ;;
      let expiresAt := now + numOr (expires_in json) 3600 in
      do (CacheSet cacheKey {| accessToken := access_token json; expiresAt := expiresAt |}) ;;
      Ret (access_token json) in
  match cached with
  | Some c => if now <? expiresAt c - 60 then Ret (accessToken c) else exchange
  | None => exchange
  end.

Definition fetchFo (pathname : string) (init : option RequestInit) : Prog (Response Json) :=
  ctx <- getCurrentContext ;;
  if negb (Js.truthy ctx) then Throw (Reason "Missing user assertion for OBO")
  else
    foToken <- getFoAccessTokenFromObo ctx ;;
    let url := FO_URL +:+ (if Js.startsWith "/" pathname then "" else "/") +:+ pathname in
    hs <- typeError (Headers.new (match init with Some i => headers i | None => [] end)) ;;
    hs <- typeError (Headers.set "Authorization" ("Bearer " +:+ foToken) hs) ;;
    hs <- typeError (Headers.set "Accept" "application/json" hs) ;;
    let hasBody :=
      match init with
      | Some i => match body i with Some b => Js.truthy b | None => false end
      | None => false
      end in
    missing <- (if hasBody then
                  contentType <- typeError (Headers.get "Content-Type" hs) ;;
                  Ret (negb (match contentType with
                             | Some v => Js.truthy v
                             | None => false
                             end))
                else Ret false) ;;
    hs <- (if missing then typeError (Headers.set "Content-Type" "application/json" hs)
           else Ret hs) ;;
    let init' :=
      match init with
      | Some i => {| method := method i; headers := hs; body := body i |}
      | None => {| method := "GET"; headers := hs; body := None |}
      end in
    r <- await (FetchFo url init') ;;
    fetched r.

Definition errorValue (msg : string) : Json := JObj [("error", JStr msg)].

Definition createRecord (entityName : string) (data : Json) : Prog Json :=
  resp <- fetchFo ("/data/" +:+ entityName)
            (Some {| method := "POST"; headers := []; body := Some (JSON_stringify h data) |}) ;;
  if negb (ok resp) then
    do (ConsoleError ("Create failed: " +:+ Js.showN (status resp) +:+ " " +:+ text resp) None) ;;
    Ret (errorValue ("Create failed: " +:+ Js.showN (status resp)))
  else readJson resp.

Definition readRecord (entityName : string) (query : option string) : Prog (Response Json) :=
  let url :=
    match query with
    | Some q => if Js.truthy q then "/data/" +:+ entityName +:+ "?" +:+ q
                else "/data/" +:+ entityName
    | None => "/data/" +:+ entityName
    end in
  resp <- fetchFo url (Some {| method := "GET"; headers := []; body := None |}) ;;
  if negb (ok resp) then
    Throw (ErrorMsg ("Network error calling F&O: " +:+ Js.showN (status resp)
                     +:+ " " +:+ text resp))
  else Ret resp.

Definition updateRecord (entityName key : string) (data : Json) : Prog Json :=
  resp <- fetchFo ("/data/" +:+ entityName +:+ "(" +:+ key +:+ ")")
            (Some {| method := "PATCH"; headers := []; body := Some (JSON_stringify h data) |}) ;;
  if negb (ok resp) then
    do (ConsoleError ("Update failed: " +:+ Js.showN (status resp) +:+ " " +:+ text resp) None) ;;
    Ret (errorValue ("Update failed: " +:+ Js.showN (status resp)))
  else readJson resp.

Definition deleteRecord (entityName key : string) : Prog Json :=
  resp <- fetchFo ("/data/" +:+ entityName +:+ "(" +:+ key +:+ ")")
            (Some {| method := "DELETE"; headers := []; body := None |}) ;;
  if negb (ok resp) then
    do (ConsoleError ("Delete failed: " +:+ Js.showN (status resp) +:+ " " +:+ text resp) None) ;;
    Ret (errorValue ("Delete failed: " +:+ Js.showN (status resp)))
  else readJson resp.

Definition rejection (msg : string) : Json :=
  JObj [("isSuccess", JBool false); ("message", JStr msg)].

(** [next()] hands the request to Express, which runs the downstream
    handler and deals with its failures itself; here it is the observable
    [Next], carrying the store that [requestContext.run] has made
    current. *)
Definition authMiddleware (auth : HeaderValue) : Prog unit :=
  match auth with
  | Absent | Multi _ => do (Respond 200 (rejection "Missing Authorization header"))
  | Single a =>
      if negb (Js.truthy a) then do (Respond 200 (rejection "Missing Authorization header"))
      else
        match BearerPattern.exec a with
        | None => do (Respond 200 (rejection "Invalid Authorization header"))
        | Some token =>
            if negb (Js.truthy token) then do (Respond 200 (rejection "Missing token"))
            else
              tryCatch
                (validateInboundJwt token ;; do (Next (Some token)))
                (fun err =>
                   do (ConsoleError "JWT validation failed" (Some (describe err))) ;;
                   do (Respond 200 (rejection "Unauthorized - Invalid or expired token")))
        end
  end.

Definition escapeODataLiteral (value : string) : string :=
  Js.replaceAllChar "'" "''" value.

End WithHost.
End D365Connector.

(** ** The record routes of [d365Routes], which share one connector *)

Record Request := {
  authorization : HeaderValue;
  entityName : string;        (* [req.params.entityName] *)
  query : option string;      (* [req.query.query] *)
  reqBody : Json              (* [req.body] *)
}.

Module D365Routes.
Section WithHost.

Variable h : Host.

Definition errorBody (m : option string) : Json :=
  JObj (match m with Some s => [("error", JStr s)] | None => [] end).

(** The header checks shared by the middleware and the handlers: the
    bearer token, or the 401 payload. *)
Definition bearerOf (auth : HeaderValue) : string + Json :=
  match auth with
  | Absent | Multi _ => inr (errorBody (Some "Missing Authorization header"))
  | Single a =>
      if negb (Js.truthy a) then inr (errorBody (Some "Missing Authorization header"))
      else
        match BearerPattern.exec a with
        | Some token =>
            if Js.truthy token then inl token
            else inr (errorBody (Some "Invalid Authorization header"))
        | None => inr (errorBody (Some "Invalid Authorization header"))
        end
  end.

Definition extractTokenMiddleware (req : Request) (next : Prog unit) : Prog unit :=
  match bearerOf (authorization req) with
  | inr payload => do (Respond 401 payload)
  | inl _ => do (Next None) ;; next
  end.

(** [router.get('/records/:entityName', ...)] *)
Definition getRecords (req : Request) : Prog unit :=
  tryCatch
    (if negb (Js.truthy (entityName req))
     then do (Respond 400 (errorBody (Some "Entity name is required")))
     else
       match bearerOf (authorization req) with
       | inr payload => do (Respond 401 payload)
       | inl userToken =>
           D365Connector.setToken userToken ;;
           response <- D365Connector.readRecord h (entityName req) (query req) ;;
           data <- readJson response ;;
           do (Respond 200 data)
       end)
    (fun error =>
       do (ConsoleError "Error reading record:" (message error)) ;;
       do (Respond 500 (errorBody (message error)))).

(** [router.post('/records/:entityName', ...)] *)
Definition postRecords (req : Request) : Prog unit :=
  tryCatch
    (if negb (Js.truthy (entityName req))
     then do (Respond 400 (errorBody (Some "Entity name is required")))
     else
       match bearerOf (authorization req) with
       | inr payload => do (Respond 401 payload)
       | inl userToken =>
           result <- D365Connector.createRecord h (entityName req) (reqBody req) ;;
           do (Respond 200 result)
       end)
    (fun error =>
       do (ConsoleError "Error creating record:" (message error)) ;;
       do (Respond 500 (errorBody (message error)))).

Definition handleGet (req : Request) : Prog unit :=
  extractTokenMiddleware req (getRecords req).

Definition handlePost (req : Request) : Prog unit :=
  extractTokenMiddleware req (postRecords req).

End WithHost.
End D365Routes.

(** ** Sample hosts, networks and worlds *)

Module Sample.

Definition hexDigit (n : N) : ascii :=
  if (n <? 10)%N then ascii_of_N (48 + n) else ascii_of_N (87 + n).

(** A stand-in for the digest: the hexadecimal spelling of the input.
    It is injective and its output is made of hexadecimal digits. *)
Fixpoint hexSpell (s : string) : string :=
  match s with
  | EmptyString => EmptyString
  | String c rest =>
      let n := N_of_ascii c in
      String (hexDigit (n / 16)) (String (hexDigit (n mod 16)) (hexSpell rest))
  end.

Definition stringify (j : Json) : string :=
  match j with
  | JStr s => s
  | _ => "{}"
  end.

Definition processEnv : ProcessEnv :=
  {| env_TENANT_ID := Some "contoso";
     env_API_EAS_CLIENT_ID := Some "client-1";
     env_API_EAS_CLIENT_SECRET := Some "s3cret";
     env_FO_URL := Some "https://fo.example/";
     env_API_EXPECTED_AUDIENCE := None |}.

Definition host : Host :=
  {| env := processEnv; sha256_hex := hexSpell; JSON_stringify := stringify |}.

Definition world0 : World :=
  {| clock := 1700000000123; userToken := ""; oboCache := ∅; trace := [] |}.

Definition response (code : N) (t : string) {B} (j : option B) : Response B :=
  {| status := code; text := t; json := j |}.

(** Every verification throws. *)
Definition forgedNet : Network :=
  {| jwks := fun _ _ _ _ => VerifyThrows "JWSSignatureVerificationFailed";
     tokenEndpoint := fun _ _ _ => FetchFails "TypeError";
     foEndpoint := fun _ _ _ => FetchFails "TypeError" |}.

(** The value of the [assertion] entry of the form. *)
Fixpoint lookupParam (name : string) (params : list (string * string)) : string :=
  match params with
  | [] => ""
  | (n, v) :: rest => if String.eqb n name then v else lookupParam name rest
  end.

(** A token endpoint that mints ["fo-for-" + assertion], valid [ttl]
    seconds, and a downstream that answers every call with [foCode]. *)
Definition mintingNet (ttl : option Z) (foCode : N) : Network :=
  {| jwks := fun _ _ _ _ =>
       Verified {| iss := Some "https://sts.windows.net/contoso/"; sub := Some "u1" |};
     tokenEndpoint := fun _ _ params =>
       Fetched (response 200 "{...}"
                  (Some {| access_token := "fo-for-" +:+ lookupParam "assertion" params;
                           expires_in := ttl |}));
     foEndpoint := fun _ _ _ =>
       Fetched (response foCode "downstream body" (Some (JObj [("value", JArr [])]))) |}.

(** A token endpoint that refuses the exchange. *)
Definition refusingNet : Network :=
  {| jwks := fun _ _ _ _ => VerifyThrows "JWTExpired";
     tokenEndpoint := fun _ _ _ => Fetched (response 400 "invalid_grant" None);
     foEndpoint := fun _ _ _ => FetchFails "TypeError" |}.

(** Two inbound requests of two users. *)
Definition requestA : Request :=
  {| authorization := Single "Bearer tokA.a.a";
     entityName := "EmployeesV2";
     query := Some "$top=10";
     reqBody := JNull |}.

Definition requestB : Request :=
  {| authorization := Single "Bearer tokB.b.b";
     entityName := "EmployeesV2";
     query := None;
     reqBody := JObj [("PersonnelNumber", JStr "123")] |}.

(** A world in which a user's assertion is current. *)
Definition worldOf (assertion : string) : World :=
  {| clock := 1700000000123; userToken := assertion; oboCache := ∅; trace := [] |}.

End Sample.

(** ** Spec-side definitions used in the statements *)

(** Following the spec's words for [escape]: every single quote becomes two
    single quotes, every other character stays. *)
Definition doubleQuotes (value : string) : string :=
  string_of_list_ascii
    (flat_map (fun c => if Ascii.eqb c "'" then ["'"; "'"]%char else [c])
       (list_ascii_of_string value)).

Fixpoint quoteFree (value : string) : bool :=
  match value with
  | EmptyString => true
  | String c rest => negb (Ascii.eqb c "'") && quoteFree rest
  end.

(** The number of token-exchange calls in a trace. *)
Fixpoint exchangeCalls (tr : list Obs) : nat :=
  match tr with
  | [] => O
  | ONet (FetchToken _ _) :: rest => S (exchangeCalls rest)
  | _ :: rest => exchangeCalls rest
  end.

(** The number of network calls of any kind in a trace. *)
Fixpoint networkCalls (tr : list Obs) : nat :=
  match tr with
  | [] => O
  | ONet _ :: rest => S (networkCalls rest)
  | _ :: rest => networkCalls rest
  end.

(** The stores handed to [next()] and the responses sent, in order. *)
Fixpoint nextCalls (tr : list Obs) : list (option string) :=
  match tr with
  | [] => []
  | ONext store :: rest => store :: nextCalls rest
  | _ :: rest => nextCalls rest
  end.

Fixpoint responses (tr : list Obs) : list (N * Json) :=
  match tr with
  | [] => []
  | OResponse code payload :: rest => (code, payload) :: responses rest
  | _ :: rest => responses rest
  end.

(** The [Authorization] headers of the downstream calls of a trace. *)
Fixpoint foAuthorizations (tr : list Obs) : list (option string) :=
  match tr with
  | [] => []
  | ONet (FetchFo _ init) :: rest =>
      Headers.getFrom "Authorization" (headers init) :: foAuthorizations rest
  | _ :: rest => foAuthorizations rest
  end.

(** The assertions presented to the token endpoint in a trace. *)
Fixpoint exchangedAssertions (tr : list Obs) : list string :=
  match tr with
  | [] => []
  | ONet (FetchToken _ params) :: rest =>
      Sample.lookupParam "assertion" params :: exchangedAssertions rest
  | _ :: rest => exchangedAssertions rest
  end.

(** The action a suspended task is waiting for. *)
Definition pendingAction {A} (s : Suspended A) : option AsyncAction :=
  match s with
  | Pending a _ => Some a
  | Settled _ => None
  end.

(** Hexadecimal output, as [digest("hex")] produces it. *)
Definition isHexDigit (c : ascii) : bool :=
  let n := N_of_ascii c in
  (((48 <=? n) && (n <=? 57)) || ((97 <=? n) && (n <=? 102)))%N.

Fixpoint hexOnly (s : string) : bool :=
  match s with
  | EmptyString => true
  | String c rest => isHexDigit c && hexOnly rest
  end.

(** What one call of [getFoAccessTokenFromObo] does on a cache miss, case by
    case of the token endpoint's answer. *)
Definition exchangeStep (h : Host) (net : Network) (assertionJwt : string) (w : World)
  : Outcome string * World :=
  let key := D365Connector.cacheKey h assertionJwt in
  let now := clock w / 1000 in
  let call := FetchToken (D365Connector.tokenUrl h) (D365Connector.oboParams h assertionJwt) in
  let w1 := log (ONet call) w in
  match answer net call (trace w) with
  | FetchFails name => (Rejected (Foreign name), w1)
  | Fetched resp =>
      if ok resp then
        match json resp with
        | Some j =>
            (Resolved (access_token j),
             cacheSet key {| accessToken := access_token j;
                             expiresAt := now + numOr (expires_in j) 3600 |} w1)
        | None => (Rejected (Foreign "SyntaxError"), w1)
        end
      else
        (Rejected (Reason ("OBO token exchange failed: " +:+ Js.showN (status resp)
                           +:+ " " +:+ text resp)), w1)
  end.

(** The validator as an ordered list of two verification attempts: what one
    call of [validateInboundJwt] does, case by case of the key sets'
    answers. *)
Definition validateStep (h : Host) (net : Network) (token : string) (w : World)
  : Outcome Payload * World :=
  let v2 := JwtVerify token JwksV2 (D365Connector.API_EXPECTED_AUDIENCE h) in
  let v1 := JwtVerify token JwksV1 (D365Connector.API_EXPECTED_AUDIENCE h) in
  let w2 := log (ONet v2) w in
  let w1 := log (ONet v1) w2 in
  let second :=
    match answer net v1 (trace w2) with
    | Verified p =>
        if D365Connector.issuerAllowed h p then (Resolved p, w1)
        else (Rejected (Reason "Unexpected issuer"), w1)
    | VerifyThrows name => (Rejected (Foreign name), w1)
    end in
  match answer net v2 (trace w) with
  | Verified p => if D365Connector.issuerAllowed h p then (Resolved p, w2) else second
  | VerifyThrows _ => second
  end.

(** The token a well-formed [Authorization] header carries: a single,
    non-empty value matching the bearer pattern with a non-empty token. *)
Definition bearerToken (auth : HeaderValue) : option string :=
  match auth with
  | Single a =>
      if Js.truthy a then
        match BearerPattern.exec a with
        | Some token => if Js.truthy token then Some token else None
        | None => None
        end
      else None
  | Absent | Multi _ => None
  end.

(** The digest does not collide on the fingerprint inputs of two assertions. *)
Definition noCollision (h : Host) (a1 a2 : string) : Prop :=
  sha256_hex h (a1 +:+ "|" +:+ D365Connector.FO_URL h) =
  sha256_hex h (a2 +:+ "|" +:+ D365Connector.FO_URL h) ->
  a1 +:+ "|" +:+ D365Connector.FO_URL h = a2 +:+ "|" +:+ D365Connector.FO_URL h.

(** ** Definitions used by the further properties *)

(** The number of key-set verifications in a trace. *)
Fixpoint verifyCalls (tr : list Obs) : nat :=
  match tr with
  | [] => O
  | ONet (JwtVerify _ _ _) :: rest => S (verifyCalls rest)
  | _ :: rest => verifyCalls rest
  end.

(** The console lines of a trace. *)
Fixpoint consoleLines (tr : list Obs) : list string :=
  match tr with
  | [] => []
  | OConsole msg _ :: rest => msg :: consoleLines rest
  | _ :: rest => consoleLines rest
  end.

(** A program all of whose synchronous actions satisfy [PS] and all of whose
    awaited actions satisfy [PA], whatever the answers. *)
Fixpoint Only {A} (PS : SyncAction -> Prop) (PA : AsyncAction -> Prop) (p : Prog A) : Prop :=
  match p with
  | Ret _ => True
  | Throw _ => True
  | Do a k => PS a /\ forall r, Only PS PA (k r)
  | Await a k => PA a /\ forall r, Only PS PA (k r)
  end.

Definition writesUserToken (a : SyncAction) : Prop :=
  match a with WriteUserToken _ => True | _ => False end.

Definition writesCache (a : SyncAction) : Prop :=
  match a with CacheSet _ _ => True | _ => False end.

Definition speaks (a : SyncAction) : Prop :=
  match a with Respond _ _ | Next _ => True | _ => False end.

Definition verifies (a : AsyncAction) : Prop :=
  match a with JwtVerify _ _ _ => True | _ => False end.

(** A suspended task resumed with the reply to the action it waits for. *)
Definition resume {A} (s : Suspended A) (reply : forall a, AsyncResult a) (w : World)
  : Suspended A * World :=
  match s with
  | Settled o => (Settled o, w)
  | Pending a k => runSync (k (reply a)) w
  end.

(** The request [fetchFo] sends downstream once it holds the token
    [foToken]: the URL and the [RequestInit] handed to [fetch]. *)
Definition downstreamUrl (h : Host) (pathname : string) : string :=
  D365Connector.FO_URL h +:+ (if Js.startsWith "/" pathname then "" else "/") +:+ pathname.

Definition downstreamInit (init : option RequestInit) (foToken : string)
  : option RequestInit :=
  match Headers.new (match init with Some i => headers i | None => [] end) with
  | None => None
  | Some hs0 =>
      match Headers.set "Authorization" ("Bearer " +:+ foToken) hs0 with
      | None => None
      | Some hs1 =>
          let hs2 := Headers.setIn "Accept" "application/json" hs1 in
          let hasBody :=
            match init with
            | Some i => match body i with Some b => Js.truthy b | None => false end
            | None => false
            end in
          let given :=
            match Headers.getFrom "Content-Type" hs2 with
            | Some v => Js.truthy v
            | None => false
            end in
          let hs := if hasBody && negb given
                    then Headers.setIn "Content-Type" "application/json" hs2 else hs2 in
          Some match init with
               | Some i => {| method := method i; headers := hs; body := body i |}
               | None => {| method := "GET"; headers := hs; body := None |}
               end
      end
  end.

(** The number of single quotes of a string. *)
Fixpoint countQuotes (s : string) : nat :=
  match s with
  | EmptyString => O
  | String c rest => if Ascii.eqb c "'" then S (countQuotes rest) else countQuotes rest
  end.

(** Every single quote is followed by its double: the content of a quoted
    OData literal that does not end the literal early. *)
Fixpoint quotesPaired (s : string) : bool :=
  match s with
  | EmptyString => true
  | String c rest =>
      if Ascii.eqb c "'" then
        match rest with
        | String c' rest' => Ascii.eqb c' "'" && quotesPaired rest'
        | EmptyString => false
        end
      else quotesPaired rest
  end.

(** The reader's side of the escaping: a doubled quote stands for one. *)
Fixpoint collapseQuotes (s : string) : string :=
  match s with
  | EmptyString => EmptyString
  | String c rest =>
      if Ascii.eqb c "'" then
        match rest with
        | String _ rest' => String c (collapseQuotes rest')
        | EmptyString => String c EmptyString
        end
      else String c (collapseQuotes rest)
  end.

Fixpoint endsWithSlash (s : string) : bool :=
  match s with
  | EmptyString => false
  | String c rest =>
      match rest with
      | EmptyString => Ascii.eqb c "/"
      | String _ _ => endsWithSlash rest
      end
  end.

Fixpoint allSpaces (s : string) : bool :=
  match s with
  | EmptyString => true
  | String c rest => BearerPattern.isSpace c && allSpaces rest
  end.

Definition startsWithSpace (s : string) : bool :=
  match s with
  | EmptyString => false
  | String c _ => BearerPattern.isSpace c
  end.

(** Calls of [getFoAccessTokenFromObo] made one after the other, each at its
    own clock reading. *)
Fixpoint runCalls (h : Host) (net : Network) (calls : list (string * Z)) (w : World) : World :=
  match calls with
  | [] => w
  | (assertionJwt, t) :: rest =>
      runCalls h net rest
        (snd (run net (D365Connector.getFoAccessTokenFromObo h assertionJwt) (atTime t w)))
  end.


(** Further sample parties. *)
Module Scenario.

(** A downstream that answers 204 with an empty body. *)
Definition noContentNet : Network :=
  {| jwks := fun _ _ _ _ => VerifyThrows "JWTExpired";
     tokenEndpoint := fun _ _ params =>
       Fetched (Sample.response 200 "{...}"
                  (Some {| access_token := "fo-for-" +:+ Sample.lookupParam "assertion" params;
                           expires_in := Some 3600 |}));
     foEndpoint := fun _ _ _ => Fetched (Sample.response 204 "" None) |}.

(** A caller's [RequestInit] with headers of its own. *)
Definition patchInit : RequestInit :=
  {| method := "PATCH";
     headers := [("AUTHORIZATION", "Basic abc"); ("content-type", "text/plain")];
     body := Some "{}" |}.

(** A caller whose [Content-Type] is blank, and one with a header name that
    is no token. *)
Definition blankInit : RequestInit :=
  {| method := "POST"; headers := [("Content-Type", " ")]; body := Some "{}" |}.


Definition calls : list (string * Z) :=
  [("tokA.a.a", 1700000000123); ("tokB.b.b", 1700000001000);
   ("tokA.a.a", 1700009999000)].

End Scenario.

(** ** Small checks of the helpers *)

Example showN_400 : Js.showN 400 = "400".
Proof. vm_compute. reflexivity. Qed.

Example strip_ex : Js.stripTrailingSlash "https://fo.example/" = "https://fo.example".
Proof. vm_compute. reflexivity. Qed.

Example exec_ok : BearerPattern.exec "bEaReR   abc.def" = Some "abc.def".
Proof. reflexivity. Qed.

Example exec_bare : BearerPattern.exec "Bearer" = None.
Proof. reflexivity. Qed.

Example exec_basic : BearerPattern.exec "Basic xyz" = None.
Proof. reflexivity. Qed.
Example exec_blank : BearerPattern.exec "Bearer " = None.
Proof. reflexivity. Qed.
Example exec_two_blanks : BearerPattern.exec "Bearer  " = Some " ".
Proof. reflexivity. Qed.

(** ** Laws of the interpreter *)

Section RunLaws.

Context {A B : Type} (net : Network).

Lemma run_bind (p : Prog A) (f : A -> Prog B) (w : World) :
  run net (bind p f) w =
    match run net p w with
    | (Resolved a, w') => run net (f a) w'
    | (Rejected e, w') => (Rejected e, w')
    end.
Proof.
  revert w. induction p as [a | e | a k IH | a k IH]; intros w; simpl; auto.
Qed.

Lemma run_tryCatch (p : Prog A) (handler : JsError -> Prog A) (w : World) :
  run net (tryCatch p handler) w =
    match run net p w with
    | (Resolved a, w') => (Resolved a, w')
    | (Rejected e, w') => run net (handler e) w'
    end.
Proof.
  revert w. induction p as [a | e | a k IH | a k IH]; intros w; simpl; auto.
Qed.

Lemma runSync_bind_pending (p : Prog A) (f : A -> Prog B) (w : World) :
  pendingAction (fst (runSync (bind p f) w)) =
    match runSync p w with
    | (Settled (Resolved a), w') => pendingAction (fst (runSync (f a) w'))
    | (Settled (Rejected _), _) => None
    | (Pending a _, _) => Some a
    end.
Proof.
  revert w. induction p as [a | e | a k IH | a k IH]; intros w; simpl; auto.
Qed.

End RunLaws.

Lemma exchangeCalls_app (t1 t2 : list Obs) :
  exchangeCalls (t1 ++ t2) = (exchangeCalls t1 + exchangeCalls t2)%nat.
Proof.
  induction t1 as [| o t1 IH]; simpl; auto.
  destruct o as [[] | | |]; simpl; rewrite IH; reflexivity.
Qed.

Lemma nextCalls_app (t1 t2 : list Obs) :
  nextCalls (t1 ++ t2) = (nextCalls t1 ++ nextCalls t2)%list.
Proof.
  induction t1 as [| o t1 IH]; simpl; auto.
  destruct o; simpl; rewrite IH; reflexivity.
Qed.

Lemma responses_app (t1 t2 : list Obs) :
  responses (t1 ++ t2) = (responses t1 ++ responses t2)%list.
Proof.
  induction t1 as [| o t1 IH]; simpl; auto.
  destruct o; simpl; rewrite IH; reflexivity.
Qed.

(** ** The token cache and the exchanger *)

Section Exchanger.

Variable h : Host.
Variable net : Network.

Import D365Connector.

Lemma run_getFo_hit (assertionJwt : string) (w : World) (c : CacheEntry) :
  oboCache w !! cacheKey h assertionJwt = Some c ->
  usable (Some c) (clock w / 1000) = true ->
  run net (getFoAccessTokenFromObo h assertionJwt) w = (Resolved (accessToken c), w).
Proof.
  intros Hc Hu. unfold getFoAccessTokenFromObo. simpl.
  rewrite Hc. simpl in Hu. rewrite Hu. reflexivity.
Qed.

Lemma run_getFo_miss (assertionJwt : string) (w : World) :
  usable (oboCache w !! cacheKey h assertionJwt) (clock w / 1000) = false ->
  run net (getFoAccessTokenFromObo h assertionJwt) w = exchangeStep h net assertionJwt w.
Proof.
  intros Hu. unfold getFoAccessTokenFromObo, exchangeStep. simpl.
  assert (Hex : forall p : Prog string,
             run net (match oboCache w !! cacheKey h assertionJwt with
                      | Some c => if clock w / 1000 <? expiresAt c - 60
                                  then Ret (accessToken c) else p
                      | None => p
                      end) w = run net p w).
  { intros p. destruct (oboCache w !! cacheKey h assertionJwt) as [c |]; auto.
    simpl in Hu. rewrite Hu. reflexivity. }
  rewrite Hex. simpl.
  destruct (tokenEndpoint net (trace w) (tokenUrl h) (oboParams h assertionJwt))
    as [resp | name]; simpl; auto.
  destruct (ok resp); simpl; auto.
  unfold readJson. destruct (json resp) as [j |]; simpl; auto.
Qed.

Lemma run_getFo (assertionJwt : string) (w : World) :
  run net (getFoAccessTokenFromObo h assertionJwt) w =
    match oboCache w !! cacheKey h assertionJwt with
    | Some c =>
        if usable (Some c) (clock w / 1000) then (Resolved (accessToken c), w)
        else exchangeStep h net assertionJwt w
    | None => exchangeStep h net assertionJwt w
    end.
Proof.
  destruct (oboCache w !! cacheKey h assertionJwt) as [c |] eqn:Hc.
  - destruct (usable (Some c) (clock w / 1000)) eqn:Hu.
    + apply run_getFo_hit; assumption.
    + apply run_getFo_miss. rewrite Hc. exact Hu.
  - apply run_getFo_miss. rewrite Hc. reflexivity.
Qed.

Lemma exchangeStep_trace (assertionJwt : string) (w : World) :
  trace (snd (exchangeStep h net assertionJwt w)) =
    (trace w ++ [ONet (FetchToken (tokenUrl h) (oboParams h assertionJwt))])%list.
Proof.
  unfold exchangeStep.
  destruct (answer net _ (trace w)) as [resp | name]; simpl; auto.
  destruct (ok resp); simpl; auto.
  destruct (json resp); simpl; auto.
Qed.

Lemma exchangeStep_other_slots (assertionJwt : string) (w : World) (k : string) :
  k <> cacheKey h assertionJwt ->
  oboCache (snd (exchangeStep h net assertionJwt w)) !! k = oboCache w !! k.
Proof.
  intros Hk. unfold exchangeStep.
  destruct (answer net _ (trace w)) as [resp | name]; simpl; auto.
  destruct (ok resp); simpl; auto.
  destruct (json resp); simpl; auto.
  rewrite lookup_insert_ne; auto.
Qed.

Lemma exchangeStep_rejected (assertionJwt : string) (w : World) (e : JsError) :
  fst (exchangeStep h net assertionJwt w) = Rejected e ->
  oboCache (snd (exchangeStep h net assertionJwt w)) = oboCache w.
Proof.
  unfold exchangeStep.
  destruct (answer net _ (trace w)) as [resp | name]; simpl; auto.
  destruct (ok resp); simpl; auto.
  destruct (json resp); simpl; auto.
  discriminate.
Qed.

(** C3. Two calls for the same assertion, the first one missing the cache and
    exchanging, the second one made while the entry stored by the first is
    still usable ([expiresAt - 60 > now]): the second call returns the very
    token of the first, leaves the world as it is, and the two calls
    together performed exactly one token-exchange call. *)
Theorem cache_hit_idempotent (assertionJwt tok : string) (w w1 : World) (t2 : Z) :
  usable (oboCache w !! cacheKey h assertionJwt) (clock w / 1000) = false ->
  run net (getFoAccessTokenFromObo h assertionJwt) w = (Resolved tok, w1) ->
  usable (oboCache w1 !! cacheKey h assertionJwt) (t2 / 1000) = true ->
  let second := run net (getFoAccessTokenFromObo h assertionJwt) (atTime t2 w1) in
  fst second = Resolved tok
  /\ snd second = atTime t2 w1
  /\ exchangeCalls (trace (snd second)) = S (exchangeCalls (trace w))
  /\ networkCalls (trace (snd second)) = networkCalls (trace w1).
Proof.
  intros Hmiss Hfirst Hwin second.
  assert (Htr : trace w1 =
            (trace w ++ [ONet (FetchToken (tokenUrl h) (oboParams h assertionJwt))])%list).
  { rewrite <- (exchangeStep_trace assertionJwt w).
    rewrite <- (run_getFo_miss _ _ Hmiss), Hfirst. reflexivity. }
  rewrite (run_getFo_miss _ _ Hmiss) in Hfirst.
  destruct (oboCache w1 !! cacheKey h assertionJwt) as [c |] eqn:Hc; [| discriminate Hwin].
  assert (Htok : accessToken c = tok).
  { unfold exchangeStep in Hfirst.
    destruct (answer net _ (trace w)) as [resp | name]; [| discriminate Hfirst].
    destruct (ok resp); [| discriminate Hfirst].
    destruct (json resp) as [j |]; [| discriminate Hfirst].
    inversion Hfirst; subst. simpl in Hc.
    rewrite lookup_insert_eq in Hc. inversion Hc. reflexivity. }
  assert (Hsecond : second = (Resolved tok, atTime t2 w1)).
  { unfold second. rewrite <- Htok. apply run_getFo_hit; simpl; assumption. }
  rewrite Hsecond. simpl. repeat split.
  rewrite Htr, exchangeCalls_app. simpl. lia.
Qed.

(** C10. On a cache miss answered by a non-success response the call is
    rejected with the status and the body, and the cache is what it was;
    more generally every rejected call leaves the cache as it was, so the
    cache changes only once a successful response has been received and
    parsed. *)
Theorem exchange_failure_leaves_cache (assertionJwt : string) (w : World)
    (resp : Response TokenJson) :
  usable (oboCache w !! cacheKey h assertionJwt) (clock w / 1000) = false ->
  answer net (FetchToken (tokenUrl h) (oboParams h assertionJwt)) (trace w) = Fetched resp ->
  ok resp = false ->
  let result := run net (getFoAccessTokenFromObo h assertionJwt) w in
  fst result = Rejected (Reason ("OBO token exchange failed: " +:+ Js.showN (status resp)
                                 +:+ " " +:+ text resp))
  /\ oboCache (snd result) = oboCache w
  /\ forall (a' : string) (w' : World) (e : JsError),
       fst (run net (getFoAccessTokenFromObo h a') w') = Rejected e ->
       oboCache (snd (run net (getFoAccessTokenFromObo h a') w')) = oboCache w'.
Proof.
  intros Hmiss Hresp Hok result. unfold result.
  rewrite (run_getFo_miss _ _ Hmiss).
  split; [| split].
  - unfold exchangeStep. rewrite Hresp, Hok. reflexivity.
  - unfold exchangeStep. rewrite Hresp, Hok. reflexivity.
  - intros a' w' e. rewrite run_getFo.
    destruct (oboCache w' !! cacheKey h a') as [c |].
    + destruct (usable (Some c) (clock w' / 1000)); [discriminate |].
      apply exchangeStep_rejected.
    + apply exchangeStep_rejected.
Qed.

Lemma chars_append (a s : string) :
  list_ascii_of_string (a +:+ s) = (list_ascii_of_string a ++ list_ascii_of_string s)%list.
Proof. induction a as [| c a IH]; simpl; [reflexivity | rewrite IH; reflexivity]. Qed.

Lemma append_cancel_r (a b s : string) : a +:+ s = b +:+ s -> a = b.
Proof.
  intros H.
  apply (f_equal list_ascii_of_string) in H.
  rewrite !chars_append in H.
  apply app_inv_tail in H.
  rewrite <- (string_of_list_ascii_of_string a), <- (string_of_list_ascii_of_string b).
  rewrite H. reflexivity.
Qed.

Lemma hexOnly_neq (a k : string) : hexOnly k = true -> hexOnly a = false -> k <> a.
Proof. intros Hk Ha ->. rewrite Hk in Ha. discriminate. Qed.

(** C8. The cache slot of a call is the digest of
    [assertion + "|" + resource], and the call works through that slot: a
    usable entry found under the digest is what the call returns, a token
    obtained by exchange is stored under the digest, and no other slot is
    read into the result or changed.  Two distinct assertions on which the
    digest does not collide have distinct slots, so the call for one leaves
    the slot of the other alone.  With a digest spelled in hexadecimal, an
    assertion holding any other character (the dots of a JWT) is never the
    key written: a raw assertion that was no key before the call is no key
    after it. *)
Theorem fingerprint_derivation (a1 a2 : string) (w : World) :
  let key := sha256_hex h (a1 +:+ "|" +:+ FO_URL h) in
  let now := clock w / 1000 in
  let result := run net (getFoAccessTokenFromObo h a1) w in
  (forall c, oboCache w !! key = Some c -> now < expiresAt c - 60 ->
             result = (Resolved (accessToken c), w))
  /\ (forall resp j,
        usable (oboCache w !! key) now = false ->
        answer net (FetchToken (tokenUrl h) (oboParams h a1)) (trace w) = Fetched resp ->
        ok resp = true -> json resp = Some j ->
        fst result = Resolved (access_token j)
        /\ exists entry,
             accessToken entry = access_token j
             /\ oboCache (snd result) = <[key := entry]> (oboCache w))
  /\ (forall k, k <> key -> oboCache (snd result) !! k = oboCache w !! k)
  /\ (a1 <> a2 -> noCollision h a1 a2 ->
      cacheKey h a2 <> key
      /\ oboCache (snd result) !! cacheKey h a2 = oboCache w !! cacheKey h a2)
  /\ ((forall s, hexOnly (sha256_hex h s) = true) -> hexOnly a1 = false ->
      key <> a1 /\ oboCache (snd result) !! a1 = oboCache w !! a1).
Proof.
  intros key now result.
  change key with (cacheKey h a1) in *.
  assert (Hslots : forall k, k <> cacheKey h a1 ->
                             oboCache (snd result) !! k = oboCache w !! k).
  { intros k Hk. unfold result. rewrite run_getFo.
    destruct (oboCache w !! cacheKey h a1) as [c |].
    - destruct (usable (Some c) (clock w / 1000)); [reflexivity |].
      apply exchangeStep_other_slots; assumption.
    - apply exchangeStep_other_slots; assumption. }
  split; [| split; [| split; [exact Hslots | split]]].
  - intros c Hc Hlt. unfold result. apply (run_getFo_hit a1 w c Hc).
    simpl. apply Z.ltb_lt. exact Hlt.
  - intros resp j Hmiss Hresp Hok Hjson. unfold result.
    rewrite (run_getFo_miss a1 w Hmiss). unfold exchangeStep.
    rewrite Hresp, Hok, Hjson. simpl. split; [reflexivity |].
    eexists. split; [| reflexivity]. reflexivity.
  - intros Hne Hfree.
    assert (Hk : cacheKey h a2 <> cacheKey h a1).
    { intros Heq. apply Hne. unfold cacheKey in Heq. symmetry in Heq.
      apply Hfree in Heq. apply append_cancel_r in Heq. exact Heq. }
    split; [exact Hk | apply Hslots; exact Hk].
  - intros Hhex Ha.
    assert (Hk : cacheKey h a1 <> a1) by (apply hexOnly_neq; [apply Hhex | exact Ha]).
    split; [exact Hk |]. apply Hslots. congruence.
Qed.

End Exchanger.

(** ** The validator *)

Section Validator.

Variable h : Host.
Variable net : Network.

Import D365Connector.

Lemma run_jwtVerify (token : string) (keys : KeySet) (audience : string) (w : World) :
  run net (jwtVerify token keys audience) w =
    (match answer net (JwtVerify token keys audience) (trace w) with
     | Verified p => Resolved p
     | VerifyThrows name => Rejected (Foreign name)
     end, log (ONet (JwtVerify token keys audience)) w).
Proof.
  unfold jwtVerify. simpl.
  destruct (jwks net (trace w) token keys audience); reflexivity.
Qed.

Lemma run_validate (token : string) (w : World) :
  run net (validateInboundJwt h token) w = validateStep h net token w.
Proof.
  unfold validateInboundJwt, validateStep.
  rewrite run_bind, run_tryCatch, run_bind, run_jwtVerify.
  assert (Hsecond : forall w',
    run net (result <- jwtVerify token JwksV1 (API_EXPECTED_AUDIENCE h) ;;
             if issuerAllowed h result then Ret result
             else Throw (Reason "Unexpected issuer")) w' =
    match answer net (JwtVerify token JwksV1 (API_EXPECTED_AUDIENCE h)) (trace w') with
    | Verified p =>
        if issuerAllowed h p
        then (Resolved p, log (ONet (JwtVerify token JwksV1 (API_EXPECTED_AUDIENCE h))) w')
        else (Rejected (Reason "Unexpected issuer"),
              log (ONet (JwtVerify token JwksV1 (API_EXPECTED_AUDIENCE h))) w')
    | VerifyThrows name =>
        (Rejected (Foreign name),
         log (ONet (JwtVerify token JwksV1 (API_EXPECTED_AUDIENCE h))) w')
    end).
  { intros w'. rewrite run_bind, run_jwtVerify.
    destruct (answer net _ (trace w')) as [p1 | n1]; [| reflexivity].
    destruct (issuerAllowed h p1); reflexivity. }
  destruct (answer net (JwtVerify token JwksV2 (API_EXPECTED_AUDIENCE h)) (trace w))
    as [p | name].
  - destruct (issuerAllowed h p) eqn:Hp.
    + reflexivity.
    + cbn [run]. apply Hsecond.
  - cbn [run]. apply Hsecond.
Qed.

Lemma includes_two (a b x : string) :
  Js.includes [a; b] x = true -> x = a \/ x = b.
Proof.
  simpl. destruct (String.eqb a x) eqn:Ha.
  - apply String.eqb_eq in Ha. auto.
  - destruct (String.eqb b x) eqn:Hb; [| discriminate].
    apply String.eqb_eq in Hb. auto.
Qed.

Lemma issuerAllowed_iss (p : Payload) :
  issuerAllowed h p = true -> iss p = Some (ISSUER_V2 h) \/ iss p = Some (ISSUER_V1 h).
Proof.
  unfold issuerAllowed. intros H. apply includes_two in H.
  destruct (iss p) as [i |]; simpl in H.
  - destruct H as [-> | ->]; auto.
  - destruct H as [H | H]; unfold ISSUER_V2, ISSUER_V1 in H; simpl in H; discriminate H.
Qed.

(** C2, as the code has it.  The v2 key set is tried first and its claims
    are returned when it verifies the token with an allow-listed [iss]; when
    it throws or the issuer is not allow-listed, the v1 key set is tried and
    its claims are returned under the same condition.  A v1 verification
    that succeeds with another issuer fails with ["Unexpected issuer"]; a
    v1 verification that itself throws fails with that exception.  A
    validated result always has [iss] among the two configured issuers. *)
Theorem validator_algorithm (token : string) (w : World) :
  let v2 := JwtVerify token JwksV2 (API_EXPECTED_AUDIENCE h) in
  let v1 := JwtVerify token JwksV1 (API_EXPECTED_AUDIENCE h) in
  let afterV2 := log (ONet v2) w in
  let afterV1 := log (ONet v1) afterV2 in
  let fallback :=
    match answer net v1 (trace afterV2) with
    | Verified p =>
        if issuerAllowed h p then (Resolved p, afterV1)
        else (Rejected (Reason "Unexpected issuer"), afterV1)
    | VerifyThrows name => (Rejected (Foreign name), afterV1)
    end in
  run net (validateInboundJwt h token) w =
    match answer net v2 (trace w) with
    | Verified p => if issuerAllowed h p then (Resolved p, afterV2) else fallback
    | VerifyThrows _ => fallback
    end
  /\ forall p, fst (run net (validateInboundJwt h token) w) = Resolved p ->
               iss p = Some (ISSUER_V1 h) \/ iss p = Some (ISSUER_V2 h).
Proof.
  intros v2 v1 afterV2 afterV1 fallback.
  split; [apply run_validate |].
  intros p. rewrite run_validate. unfold validateStep.
  fold v2 v1 afterV2 afterV1.
  assert (Hfb : forall q,
             fst (match answer net v1 (trace afterV2) with
                  | Verified p0 =>
                      if issuerAllowed h p0 then (Resolved p0, afterV1)
                      else (Rejected (Reason "Unexpected issuer"), afterV1)
                  | VerifyThrows name => (Rejected (Foreign name), afterV1)
                  end) = Resolved q -> issuerAllowed h q = true).
  { intros q. destruct (answer net v1 (trace afterV2)) as [p1 | n1]; [| discriminate].
    destruct (issuerAllowed h p1) eqn:H1; [| discriminate].
    simpl. intros Hq. inversion Hq; subst. exact H1. }
  intros Hres.
  assert (Hallowed : issuerAllowed h p = true).
  { destruct (answer net v2 (trace w)) as [p2 | n2].
    - destruct (issuerAllowed h p2) eqn:H2.
      + simpl in Hres. inversion Hres; subst. exact H2.
      + apply Hfb. exact Hres.
    - apply Hfb. exact Hres. }
  apply issuerAllowed_iss in Hallowed. tauto.
Qed.

(** Whatever the answers, a validation only adds network calls to the
    trace. *)
Lemma validate_trace (token : string) (w : World) :
  exists delta,
    trace (snd (run net (validateInboundJwt h token) w)) = (trace w ++ delta)%list
    /\ nextCalls delta = [] /\ responses delta = [].
Proof.
  rewrite run_validate. unfold validateStep.
  set (v2 := JwtVerify token JwksV2 _). set (v1 := JwtVerify token JwksV1 _).
  assert (Hfb : exists delta,
             trace (snd (match answer net v1 (trace (log (ONet v2) w)) with
                         | Verified p =>
                             if issuerAllowed h p
                             then (Resolved p, log (ONet v1) (log (ONet v2) w))
                             else (Rejected (Reason "Unexpected issuer"),
                                   log (ONet v1) (log (ONet v2) w))
                         | VerifyThrows name =>
                             (Rejected (Foreign name), log (ONet v1) (log (ONet v2) w))
                         end)) = (trace w ++ delta)%list
             /\ nextCalls delta = [] /\ responses delta = []).
  { exists [ONet v2; ONet v1].
    destruct (answer net v1 _) as [p1 | n1]; [destruct (issuerAllowed h p1) |];
      simpl; rewrite <- app_assoc; auto. }
  destruct (answer net v2 (trace w)) as [p2 | n2]; [| exact Hfb].
  destruct (issuerAllowed h p2); [| exact Hfb].
  exists [ONet v2]. simpl. auto.
Qed.

End Validator.

(** ** The CRUD proxy *)

Section Proxy.

Variable h : Host.
Variable net : Network.

Import D365Connector.

Lemma run_fetchFo_missing (pathname : string) (init : option RequestInit) (w : World) :
  userToken w = "" ->
  run net (fetchFo h pathname init) w =
    (Rejected (Reason "Missing user assertion for OBO"), w).
Proof.
  intros Hu. unfold fetchFo, getCurrentContext. simpl. rewrite Hu. reflexivity.
Qed.

(** The first thing a proxy call waits for, when the shared field holds an
    assertion whose exchanged token is not cached: the exchange of that
    assertion, whoever makes the call. *)
Lemma fetchFo_exchanges_shared_field (pathname : string) (init : option RequestInit)
    (w : World) :
  userToken w <> "" ->
  oboCache w !! cacheKey h (userToken w) = None ->
  pendingAction (fst (runSync (fetchFo h pathname init) w)) =
    Some (FetchToken (tokenUrl h) (oboParams h (userToken w))).
Proof.
  intros Hu Hc. unfold fetchFo, getCurrentContext. simpl.
  destruct (userToken w) as [| c u] eqn:Hw; [congruence |]. simpl.
  rewrite runSync_bind_pending.
  unfold getFoAccessTokenFromObo. simpl. rewrite Hc. simpl. reflexivity.
Qed.

(** C7. With an empty current assertion every proxy operation is rejected
    with the missing-assertion reason and the world is untouched: no token
    exchange and no downstream call has been made. *)
Theorem missing_assertion_precondition (entity key : string) (q : option string)
    (data : Json) (w : World) :
  userToken w = "" ->
  run net (createRecord h entity data) w =
    (Rejected (Reason "Missing user assertion for OBO"), w)
  /\ run net (readRecord h entity q) w =
    (Rejected (Reason "Missing user assertion for OBO"), w)
  /\ run net (updateRecord h entity key data) w =
    (Rejected (Reason "Missing user assertion for OBO"), w)
  /\ run net (deleteRecord h entity key) w =
    (Rejected (Reason "Missing user assertion for OBO"), w).
Proof.
  intros Hu.
  unfold createRecord, readRecord, updateRecord, deleteRecord.
  rewrite !run_bind, !run_fetchFo_missing by exact Hu.
  repeat split.
Qed.

(** C5. When the downstream call of an operation comes back with a
    non-success status, [createRecord], [updateRecord] and [deleteRecord]
    log the failure and resolve to the error value naming the status,
    whereas [readRecord] is rejected with an error carrying the status and
    the body; a response that [readRecord] does return is a success. *)
Theorem read_write_error_asymmetry (entity key : string) (q : option string)
    (data : Json) (w w1 : World) (resp : Response Json) :
  ok resp = false ->
  let s := Js.showN (status resp) in
  (run net (fetchFo h ("/data/" +:+ entity)
              (Some {| method := "POST"; headers := [];
                       body := Some (JSON_stringify h data) |})) w = (Resolved resp, w1) ->
   run net (createRecord h entity data) w =
     (Resolved (JObj [("error", JStr ("Create failed: " +:+ s))]),
      log (OConsole ("Create failed: " +:+ s +:+ " " +:+ text resp) None) w1))
  /\ (run net (fetchFo h ("/data/" +:+ entity +:+ "(" +:+ key +:+ ")")
                 (Some {| method := "PATCH"; headers := [];
                          body := Some (JSON_stringify h data) |})) w = (Resolved resp, w1) ->
      run net (updateRecord h entity key data) w =
        (Resolved (JObj [("error", JStr ("Update failed: " +:+ s))]),
         log (OConsole ("Update failed: " +:+ s +:+ " " +:+ text resp) None) w1))
  /\ (run net (fetchFo h ("/data/" +:+ entity +:+ "(" +:+ key +:+ ")")
                 (Some {| method := "DELETE"; headers := []; body := None |})) w
      = (Resolved resp, w1) ->
      run net (deleteRecord h entity key) w =
        (Resolved (JObj [("error", JStr ("Delete failed: " +:+ s))]),
         log (OConsole ("Delete failed: " +:+ s +:+ " " +:+ text resp) None) w1))
  /\ (run net (fetchFo h (match q with
                          | Some qs => if Js.truthy qs
                                       then "/data/" +:+ entity +:+ "?" +:+ qs
                                       else "/data/" +:+ entity
                          | None => "/data/" +:+ entity
                          end)
                 (Some {| method := "GET"; headers := []; body := None |})) w
      = (Resolved resp, w1) ->
      run net (readRecord h entity q) w =
        (Rejected (ErrorMsg ("Network error calling F&O: " +:+ s +:+ " " +:+ text resp)), w1))
  /\ (forall r, fst (run net (readRecord h entity q) w) = Resolved r -> ok r = true).
Proof.
  intros Hok s.
  unfold createRecord, updateRecord, deleteRecord, readRecord.
  repeat split.
  - intros Hf. rewrite run_bind, Hf, Hok. reflexivity.
  - intros Hf. rewrite run_bind, Hf, Hok. reflexivity.
  - intros Hf. rewrite run_bind, Hf, Hok. reflexivity.
  - intros Hf. rewrite run_bind, Hf, Hok. reflexivity.
  - intros r. rewrite run_bind.
    destruct (run net (fetchFo h _ _) w) as [[r0 | e] w0]; [| discriminate].
    destruct (ok r0) eqn:Hr0; simpl; [| discriminate].
    intros Hr. inversion Hr; subst. exact Hr0.
Qed.

End Proxy.

(** ** The auth middleware *)

Section Middleware.

Variable h : Host.
Variable net : Network.

Import D365Connector.

(** C6. Every run of the middleware settles without raising and extends the
    trace in one of two ways.  Either the header carries a bearer token,
    the validator accepts it, [next()] is called once and no response is
    sent; or [next()] is not called and exactly one response is sent, with
    status 200 and a payload [{isSuccess: false, message}], which is the
    case whenever the header carries no token or the validator rejects
    it. *)
Theorem middleware_rejection_uniform (auth : HeaderValue) (w : World) :
  let result := run net (authMiddleware h auth) w in
  fst result = Resolved tt
  /\ exists delta,
       trace (snd result) = (trace w ++ delta)%list
       /\ ((exists token payload,
              bearerToken auth = Some token
              /\ fst (run net (validateInboundJwt h token) w) = Resolved payload
              /\ nextCalls delta = [Some token]
              /\ responses delta = [])
           \/ (exists msg,
                 (forall token, bearerToken auth = Some token ->
                    exists e, fst (run net (validateInboundJwt h token) w) = Rejected e)
                 /\ nextCalls delta = []
                 /\ responses delta =
                      [(200%N, JObj [("isSuccess", JBool false); ("message", JStr msg)])])).
Proof.
  intros result.
  assert (Hreject : forall msg,
            bearerToken auth = None ->
            run net (authMiddleware h auth) w =
              (Resolved tt, log (OResponse 200 (rejection msg)) w) ->
            fst result = Resolved tt
            /\ exists delta,
                 trace (snd result) = (trace w ++ delta)%list
                 /\ ((exists token payload,
                        bearerToken auth = Some token
                        /\ fst (run net (validateInboundJwt h token) w) = Resolved payload
                        /\ nextCalls delta = [Some token]
                        /\ responses delta = [])
                     \/ (exists msg,
                           (forall token, bearerToken auth = Some token ->
                              exists e,
                                fst (run net (validateInboundJwt h token) w) = Rejected e)
                           /\ nextCalls delta = []
                           /\ responses delta =
                                [(200%N, JObj [("isSuccess", JBool false);
                                               ("message", JStr msg)])]))).
  { intros msg Hnone Hrun. unfold result. rewrite Hrun. split; [reflexivity |].
    exists [OResponse 200 (rejection msg)]. split; [reflexivity |].
    right. exists msg. split; [| split; reflexivity].
    intros token Ht. rewrite Hnone in Ht. discriminate. }
  destruct auth as [| a | l].
  - apply (Hreject "Missing Authorization header"); reflexivity.
  - unfold authMiddleware in *. unfold bearerToken in *.
    destruct (Js.truthy a) eqn:Ha; simpl negb in *; cbv iota in *.
    2: { apply (Hreject "Missing Authorization header"); reflexivity. }
    destruct (BearerPattern.exec a) as [token |] eqn:Hexec.
    2: { apply (Hreject "Invalid Authorization header"); reflexivity. }
    destruct (Js.truthy token) eqn:Htok; simpl negb in *; cbv iota in *.
    2: { apply (Hreject "Missing token"); reflexivity. }
    clear Hreject. unfold result. clear result.
    rewrite run_tryCatch, run_bind.
    destruct (validate_trace h net token w) as (d & Htr & Hn & Hr).
    destruct (run net (validateInboundJwt h token) w) as [[p | e] wv] eqn:Hv;
      cbn [snd] in Htr.
    + change (run net (do (Next (Some token))) wv)
        with (Resolved tt, log (ONext (Some token)) wv).
      cbn [fst snd trace log]. split; [reflexivity |].
      exists (d ++ [ONext (Some token)])%list. split.
      * rewrite Htr, app_assoc. reflexivity.
      * left. exists token, p. split; [reflexivity |]. rewrite Hv. split; [reflexivity |].
        rewrite nextCalls_app, responses_app, Hn, Hr. split; reflexivity.
    + cbv iota beta.
      change (run net _ wv)
        with (Resolved tt,
              log (OResponse 200 (rejection "Unauthorized - Invalid or expired token"))
                (log (OConsole "JWT validation failed" (Some (describe e))) wv)).
      cbn [fst snd trace log]. split; [reflexivity |].
      exists (d ++ [OConsole "JWT validation failed" (Some (describe e));
                    OResponse 200 (rejection "Unauthorized - Invalid or expired token")])%list.
      split.
      * rewrite Htr, <- !app_assoc. reflexivity.
      * right. exists "Unauthorized - Invalid or expired token".
        split; [| rewrite nextCalls_app, responses_app, Hn, Hr; split; reflexivity].
        intros token' Ht. inversion Ht; subst. rewrite Hv. exists e. reflexivity.
  - apply (Hreject "Missing Authorization header"); reflexivity.
Qed.

End Middleware.

(** ** OData literal escaping *)

(** C9. [escapeODataLiteral] replaces every single quote by two single quotes
    and keeps every other character; a value without quotes is returned as
    it is. *)
Theorem escape_doubles_quotes (value : string) :
  D365Connector.escapeODataLiteral value = doubleQuotes value
  /\ (quoteFree value = true -> D365Connector.escapeODataLiteral value = value)
  /\ D365Connector.escapeODataLiteral "O'Brien" = "O''Brien"
  /\ D365Connector.escapeODataLiteral "" = ""
  /\ D365Connector.escapeODataLiteral "no quotes" = "no quotes".
Proof.
  unfold D365Connector.escapeODataLiteral, doubleQuotes.
  split; [| split; [| repeat split]].
  - induction value as [| c rest IH]; [reflexivity |].
    simpl. destruct (Ascii.eqb c "'"); simpl; rewrite IH; reflexivity.
  - induction value as [| c rest IH]; [reflexivity |].
    simpl. destruct (Ascii.eqb c "'"); simpl; [discriminate |].
    intros Hq. rewrite IH by exact Hq. reflexivity.
Qed.

Lemma escape_doubles_quotes_witness :
  quoteFree "PersonnelNumber eq 123" = true
  /\ D365Connector.escapeODataLiteral "PersonnelNumber eq 123" = "PersonnelNumber eq 123".
Proof.
  split; [reflexivity |].
  apply (escape_doubles_quotes "PersonnelNumber eq 123"). reflexivity.
Defined.

(** ** The shared assertion field across requests *)

(** C1 fails on the code.  Request A (a GET of user A) has stored its
    assertion in the connector's shared field and is suspended on its token
    exchange when request B (a POST of user B) is handled: the first thing
    B's proxy call waits for is the exchange of A's assertion.  Run one
    after the other, both downstream calls carry the token exchanged for
    A's assertion, and B's assertion is never presented. *)
Theorem shared_field_leaks_assertion :
  let h := Sample.host in
  let net := Sample.mintingNet (Some 3600) 200 in
  let afterA := runSync (D365Routes.handleGet h Sample.requestA) Sample.world0 in
  let afterB := runSync (D365Routes.handlePost h Sample.requestB) (snd afterA) in
  let doneA := run net (D365Routes.handleGet h Sample.requestA) Sample.world0 in
  let doneB := run net (D365Routes.handlePost h Sample.requestB) (snd doneA) in
  bearerToken (authorization Sample.requestA) = Some "tokA.a.a"
  /\ bearerToken (authorization Sample.requestB) = Some "tokB.b.b"
  /\ pendingAction (fst afterA) =
       Some (FetchToken (D365Connector.tokenUrl h) (D365Connector.oboParams h "tokA.a.a"))
  /\ pendingAction (fst afterB) =
       Some (FetchToken (D365Connector.tokenUrl h) (D365Connector.oboParams h "tokA.a.a"))
  /\ exchangedAssertions (trace (snd afterB)) = ["tokA.a.a"; "tokA.a.a"]
  /\ foAuthorizations (trace (snd doneB)) =
       [Some "Bearer fo-for-tokA.a.a"; Some "Bearer fo-for-tokA.a.a"]
  /\ exchangedAssertions (trace (snd doneB)) = ["tokA.a.a"].
Proof. vm_compute. repeat split. Qed.

(** ** Concrete runs *)

Lemma hexSpell_hexOnly (s : string) : hexOnly (Sample.hexSpell s) = true.
Proof.
  induction s as [| c rest IH]; [reflexivity |].
  cbn [Sample.hexSpell hexOnly]. rewrite IH.
  destruct c as [[] [] [] [] [] [] [] []]; reflexivity.
Qed.

(** An exception of the v1 verification is what the validator fails with:
    it is neither a validated result nor ["Unexpected issuer"]. *)
Lemma validator_v1_exception_counterexample :
  let o := fst (run Sample.forgedNet
                  (D365Connector.validateInboundJwt Sample.host "x.y.z") Sample.world0) in
  o = Rejected (Foreign "JWSSignatureVerificationFailed")
  /\ o <> Rejected (Reason "Unexpected issuer")
  /\ forall p, o <> Resolved p.
Proof.
  vm_compute. split; [reflexivity |]. split; intros; discriminate.
Qed.

Lemma validator_algorithm_witness :
  fst (run (Sample.mintingNet None 200)
         (D365Connector.validateInboundJwt Sample.host "x.y.z") Sample.world0)
    = Resolved {| iss := Some "https://sts.windows.net/contoso/"; sub := Some "u1" |}
  /\ (Some "https://sts.windows.net/contoso/" = Some (D365Connector.ISSUER_V1 Sample.host)
      \/ Some "https://sts.windows.net/contoso/" = Some (D365Connector.ISSUER_V2 Sample.host)).
Proof.
  assert (H : fst (run (Sample.mintingNet None 200)
                     (D365Connector.validateInboundJwt Sample.host "x.y.z") Sample.world0)
              = Resolved {| iss := Some "https://sts.windows.net/contoso/";
                            sub := Some "u1" |})
    by (vm_compute; reflexivity).
  split; [exact H |].
  exact (proj2 (validator_algorithm Sample.host (Sample.mintingNet None 200)
                  "x.y.z" Sample.world0) _ H).
Defined.

Lemma cache_hit_idempotent_witness :
  let h := Sample.host in
  let net := Sample.mintingNet (Some 3600) 200 in
  let first := run net (D365Connector.getFoAccessTokenFromObo h "tokA.a.a") Sample.world0 in
  let later := 1700003000000 in
  let second :=
    run net (D365Connector.getFoAccessTokenFromObo h "tokA.a.a") (atTime later (snd first)) in
  fst first = Resolved "fo-for-tokA.a.a"
  /\ fst second = Resolved "fo-for-tokA.a.a"
  /\ exchangeCalls (trace (snd second)) = 1%nat.
Proof.
  intros h net first later second.
  split; [vm_compute; reflexivity |].
  assert (Hmiss : D365Connector.usable
                    (oboCache Sample.world0 !! D365Connector.cacheKey h "tokA.a.a")
                    (clock Sample.world0 / 1000) = false) by (vm_compute; reflexivity).
  assert (Hfirst : first = (Resolved "fo-for-tokA.a.a", snd first))
    by (vm_compute; reflexivity).
  assert (Hwin : D365Connector.usable
                   (oboCache (snd first) !! D365Connector.cacheKey h "tokA.a.a")
                   (later / 1000) = true) by (vm_compute; reflexivity).
  destruct (cache_hit_idempotent h net "tokA.a.a" "fo-for-tokA.a.a"
              Sample.world0 (snd first) later Hmiss Hfirst Hwin) as (H1 & _ & H3 & _).
  split; [exact H1 | exact H3].
Defined.

(** C4 fails on the code at a reply with [expires_in] zero.  The default is
    written [json.expires_in || 3600], and zero is falsy: the entry is
    stored with [now + 3600] where the claim has [now + 0], so a token that
    has no lifetime left is still served from the cache 3000 seconds later
    without a new exchange, whereas a token with a lifetime of one second is
    stored with [now + 1] and is exchanged again by the next call. *)
Theorem zero_lifetime_is_cached_for_an_hour :
  let h := Sample.host in
  let key := D365Connector.cacheKey h "tokA.a.a" in
  let now := clock Sample.world0 / 1000 in
  let call := D365Connector.getFoAccessTokenFromObo h "tokA.a.a" in
  let zero := Sample.mintingNet (Some 0) 200 in
  let one := Sample.mintingNet (Some 1) 200 in
  let first0 := run zero call Sample.world0 in
  let later0 := run zero call (atTime (clock Sample.world0 + 3000000) (snd first0)) in
  let first1 := run one call Sample.world0 in
  let next1 := run one call (snd first1) in
  answer zero (FetchToken (D365Connector.tokenUrl h) (D365Connector.oboParams h "tokA.a.a"))
    (trace Sample.world0)
    = Fetched (Sample.response 200 "{...}"
                 (Some {| access_token := "fo-for-tokA.a.a"; expires_in := Some 0 |}))
  /\ oboCache (snd first0) !! key
     = Some {| accessToken := "fo-for-tokA.a.a"; expiresAt := now + 3600 |}
  /\ oboCache (snd first0) !! key
     <> Some {| accessToken := "fo-for-tokA.a.a"; expiresAt := now + 0 |}
  /\ fst later0 = Resolved "fo-for-tokA.a.a"
  /\ exchangeCalls (trace (snd later0)) = 1%nat
  /\ oboCache (snd first1) !! key
     = Some {| accessToken := "fo-for-tokA.a.a"; expiresAt := now + 1 |}
  /\ exchangeCalls (trace (snd next1)) = 2%nat.
Proof.
  vm_compute. repeat split; try reflexivity. discriminate.
Qed.

Lemma exchange_failure_leaves_cache_witness :
  let h := Sample.host in
  let result :=
    run Sample.refusingNet (D365Connector.getFoAccessTokenFromObo h "tokA.a.a")
      Sample.world0 in
  fst result = Rejected (Reason "OBO token exchange failed: 400 invalid_grant")
  /\ oboCache (snd result) = oboCache Sample.world0.
Proof.
  intros h result.
  destruct (exchange_failure_leaves_cache h Sample.refusingNet "tokA.a.a" Sample.world0
              (Sample.response 400 "invalid_grant" None)) as (Hrej & Hcache & _).
  - vm_compute; reflexivity.
  - reflexivity.
  - reflexivity.
  - split; [exact Hrej | exact Hcache].
Defined.

Lemma fingerprint_derivation_witness :
  let h := Sample.host in
  let net := Sample.mintingNet (Some 3600) 200 in
  let key := Sample.hexSpell "tokA.a.a|https://fo.example" in
  let cached := cacheSet key {| accessToken := "held"; expiresAt := 1700003600 |}
                  Sample.world0 in
  let w' := snd (run net (D365Connector.getFoAccessTokenFromObo h "tokA.a.a") Sample.world0) in
  run net (D365Connector.getFoAccessTokenFromObo h "tokA.a.a") cached
    = (Resolved "held", cached)
  /\ (exists entry, accessToken entry = "fo-for-tokA.a.a"
                    /\ oboCache w' = <[key := entry]> (oboCache Sample.world0))
  /\ "tokA.a.a" <> "tokB.b.b"
  /\ hexOnly "tokA.a.a" = false
  /\ D365Connector.cacheKey h "tokB.b.b" <> key
  /\ key <> "tokA.a.a"
  /\ oboCache w' !! "tokA.a.a" = oboCache Sample.world0 !! "tokA.a.a".
Proof.
  intros h net key cached w'.
  assert (Hne : "tokA.a.a" <> "tokB.b.b") by discriminate.
  assert (Hfree : noCollision h "tokA.a.a" "tokB.b.b")
    by (intros H; vm_compute in H; discriminate H).
  assert (Hraw : hexOnly "tokA.a.a" = false) by reflexivity.
  destruct (fingerprint_derivation h net "tokA.a.a" "tokB.b.b" cached) as (Hhit & _).
  destruct (fingerprint_derivation h net "tokA.a.a" "tokB.b.b" Sample.world0)
    as (_ & Hstore & _ & Hdistinct & Hnever).
  destruct (Hstore (Sample.response 200 "{...}"
                      (Some {| access_token := "fo-for-tokA.a.a";
                               expires_in := Some 3600 |}))
              {| access_token := "fo-for-tokA.a.a"; expires_in := Some 3600 |})
    as (_ & entry & Hentry & Hcache); try reflexivity.
  destruct (Hnever hexSpell_hexOnly Hraw) as (Hkey & Hslot).
  split.
  { apply (Hhit {| accessToken := "held"; expiresAt := 1700003600 |}).
    - vm_compute; reflexivity.
    - vm_compute; reflexivity. }
  split; [exists entry; split; [exact Hentry | exact Hcache] |].
  split; [exact Hne |]. split; [exact Hraw |].
  split; [exact (proj1 (Hdistinct Hne Hfree)) |]. split; [exact Hkey | exact Hslot].
Defined.

Lemma missing_assertion_precondition_witness :
  userToken Sample.world0 = ""
  /\ run (Sample.mintingNet (Some 3600) 200)
       (D365Connector.createRecord Sample.host "EmployeesV2" JNull) Sample.world0
     = (Rejected (Reason "Missing user assertion for OBO"), Sample.world0).
Proof.
  split; [reflexivity |].
  apply (missing_assertion_precondition Sample.host (Sample.mintingNet (Some 3600) 200)
           "EmployeesV2" "PersonnelNumber='123'" None JNull Sample.world0).
  reflexivity.
Defined.

Lemma read_write_error_asymmetry_witness :
  let h := Sample.host in
  let net := Sample.mintingNet (Some 3600) 400 in
  let w := Sample.worldOf "tokA.a.a" in
  let data := JObj [("PersonnelNumber", JStr "123")] in
  fst (run net (D365Connector.createRecord h "EmployeesV2" data) w)
    = Resolved (JObj [("error", JStr "Create failed: 400")])
  /\ fst (run net (D365Connector.readRecord h "EmployeesV2" None) w)
    = Rejected (ErrorMsg "Network error calling F&O: 400 downstream body").
Proof.
  intros h net w data.
  set (resp := Sample.response 400 "downstream body" (Some (JObj [("value", JArr [])]))).
  assert (Hok : ok resp = false) by reflexivity.
  split.
  - set (w1 := snd (run net (D365Connector.fetchFo h ("/data/" +:+ "EmployeesV2")
                              (Some {| method := "POST"; headers := [];
                                       body := Some (JSON_stringify h data) |})) w)).
    destruct (read_write_error_asymmetry h net "EmployeesV2" "k" None data w w1 resp Hok)
      as (Hcreate & _).
    rewrite Hcreate; [reflexivity |].
    vm_compute; reflexivity.
  - set (w1 := snd (run net (D365Connector.fetchFo h ("/data/" +:+ "EmployeesV2")
                              (Some {| method := "GET"; headers := []; body := None |})) w)).
    destruct (read_write_error_asymmetry h net "EmployeesV2" "k" None data w w1 resp Hok)
      as (_ & _ & _ & Hread & _).
    rewrite Hread; [reflexivity |].
    vm_compute; reflexivity.
Defined.

Lemma middleware_rejection_uniform_witness :
  let h := Sample.host in
  let net := Sample.mintingNet (Some 3600) 200 in
  bearerToken (Single "Basic xyz") = None
  /\ bearerToken (Single "Bearer tokA.a.a") = Some "tokA.a.a"
  /\ fst (run net (D365Connector.authMiddleware h (Single "Basic xyz")) Sample.world0)
     = Resolved tt
  /\ fst (run net (D365Connector.authMiddleware h (Single "Bearer tokA.a.a")) Sample.world0)
     = Resolved tt.
Proof.
  intros h net.
  split; [reflexivity |]. split; [reflexivity |]. split.
  - exact (proj1 (middleware_rejection_uniform h net (Single "Basic xyz") Sample.world0)).
  - exact (proj1 (middleware_rejection_uniform h net (Single "Bearer tokA.a.a") Sample.world0)).
Defined.

(** The header variants of the spec, run through the middleware. *)
Example middleware_header_variants :
  let h := Sample.host in
  let net := Sample.mintingNet (Some 3600) 200 in
  let sent auth := responses (trace (snd (run net (D365Connector.authMiddleware h auth)
                                            Sample.world0))) in
  sent (Single "") = [(200%N, D365Connector.rejection "Missing Authorization header")]
  /\ sent Absent = [(200%N, D365Connector.rejection "Missing Authorization header")]
  /\ sent (Multi ["Bearer a"; "Bearer b"])
     = [(200%N, D365Connector.rejection "Missing Authorization header")]
  /\ sent (Single "Basic xyz") = [(200%N, D365Connector.rejection "Invalid Authorization header")]
  /\ sent (Single "Bearer") = [(200%N, D365Connector.rejection "Invalid Authorization header")]
  /\ sent (Single "Bearer tokA.a.a") = [].
Proof. vm_compute. repeat split. Qed.

(** * Further properties of the connector and of its routes *)

(** ** The bearer pattern *)

Section BearerFacts.

Import BearerPattern.

Lemma dotPlusEnd_inv (s : string) : dotPlusEnd s = true -> s <> "" /\ dots s = true.
Proof. destruct s; simpl; [discriminate | intros H; split; [discriminate | exact H]]. Qed.

Lemma spacesThenToken_sound (s t : string) :
  spacesThenToken s = Some t ->
  t <> "" /\ dots t = true
  /\ exists ws, s = ws +:+ t /\ ws <> "" /\ allSpaces ws = true.
Proof.
  revert t. induction s as [| c rest IH]; intros t; simpl; [discriminate |].
  destruct (isSpace c) eqn:Hc; [| discriminate].
  destruct (spacesThenToken rest) as [t' |] eqn:Hrest.
  - intros Ht. inversion Ht; subst t'. destruct (IH t eq_refl) as (Hne & Hd & ws & -> & _ & Hws).
    split; [exact Hne |]. split; [exact Hd |].
    exists (String c ws). split; [reflexivity |]. split; [discriminate |].
    simpl. rewrite Hc. exact Hws.
  - destruct (dotPlusEnd rest) eqn:Hd; [| discriminate].
    intros Ht. inversion Ht; subst t. apply dotPlusEnd_inv in Hd. destruct Hd as (Hne & Hd).
    split; [exact Hne |]. split; [exact Hd |].
    exists (String c ""). split; [reflexivity |]. split; [discriminate |].
    simpl. rewrite Hc. reflexivity.
Qed.

Lemma literal_sound (lit s rest : string) :
  literal lit s = Some rest ->
  exists scheme, s = scheme +:+ rest /\ Headers.lower scheme = Headers.lower lit.
Proof.
  revert s. induction lit as [| a lit IH]; intros s; simpl.
  - intros H. inversion H. exists "". split; reflexivity.
  - destruct s as [| b s']; [discriminate |].
    destruct (Ascii.eqb (Headers.lowerChar a) (Headers.lowerChar b)) eqn:Hab; [| discriminate].
    intros H. destruct (IH _ H) as (scheme & -> & Hl).
    exists (String b scheme). split; [reflexivity |].
    simpl. apply Ascii.eqb_eq in Hab. rewrite Hab, Hl. reflexivity.
Qed.

Lemma literal_complete (lit scheme rest : string) :
  Headers.lower scheme = Headers.lower lit ->
  literal lit (scheme +:+ rest) = Some rest.
Proof.
  revert scheme. induction lit as [| a lit IH]; intros scheme H.
  - destruct scheme; [reflexivity | discriminate].
  - destruct scheme as [| b scheme]; [discriminate |].
    simpl in H. inversion H as [[Hc Hrest]]. simpl.
    rewrite Hc, Ascii.eqb_refl. apply IH. exact Hrest.
Qed.

Lemma spacesThenToken_none (t : string) :
  startsWithSpace t = false -> spacesThenToken t = None.
Proof. destruct t as [| c t]; simpl; [reflexivity | intros ->; reflexivity]. Qed.

Lemma spacesThenToken_complete (ws t : string) :
  ws <> "" -> allSpaces ws = true ->
  t <> "" -> dots t = true -> startsWithSpace t = false ->
  spacesThenToken (ws +:+ t) = Some t.
Proof.
  intros Hne Hws Ht Hd Hs.
  induction ws as [| c ws IH]; [congruence |].
  simpl in Hws. apply andb_true_iff in Hws. destruct Hws as (Hc & Hws).
  change (spacesThenToken (String c ws +:+ t))
    with (if isSpace c then
            match spacesThenToken (ws +:+ t) with
            | Some token => Some token
            | None => if dotPlusEnd (ws +:+ t) then Some (ws +:+ t) else None
            end
          else None).
  rewrite Hc.
  destruct ws as [| c' ws'].
  - change ("" +:+ t) with t. rewrite (spacesThenToken_none t Hs).
    destruct t as [| x t']; [congruence |].
    change (dotPlusEnd (String x t')) with (dots (String x t')). rewrite Hd. reflexivity.
  - rewrite IH; [reflexivity | discriminate | exact Hws].
Qed.

(** X1. What the pattern extracts: a token that is not empty, holds no line
    terminator and ends the header, after a scheme that spells [Bearer] in
    any case and at least one blank. *)
Theorem bearer_exec_sound (auth token : string) :
  exec auth = Some token ->
  token <> "" /\ dots token = true
  /\ exists scheme ws,
       auth = scheme +:+ ws +:+ token
       /\ Headers.lower scheme = "bearer"
       /\ ws <> "" /\ allSpaces ws = true.
Proof.
  unfold exec. destruct (literal "Bearer" auth) as [rest |] eqn:Hl; [| discriminate].
  intros Hs. apply literal_sound in Hl. destruct Hl as (scheme & -> & Hscheme).
  apply spacesThenToken_sound in Hs. destruct Hs as (Hne & Hd & ws & -> & Hws & Hall).
  split; [exact Hne |]. split; [exact Hd |].
  exists scheme, ws. repeat split; assumption.
Qed.

Lemma bearer_exec_sound_witness :
  exec "BEARER   abc.def.ghi" = Some "abc.def.ghi"
  /\ "abc.def.ghi" <> "" /\ dots "abc.def.ghi" = true.
Proof.
  split; [reflexivity |].
  destruct (bearer_exec_sound "BEARER   abc.def.ghi" "abc.def.ghi" eq_refl) as (H1 & H2 & _).
  split; [exact H1 | exact H2].
Defined.

(** X2. Conversely a token that is not empty, holds no line terminator and does
    not begin with a blank is extracted as it is, whatever the case of the
    scheme and the blanks in between. *)
Theorem bearer_exec_complete (scheme ws token : string) :
  Headers.lower scheme = "bearer" ->
  ws <> "" -> allSpaces ws = true ->
  token <> "" -> dots token = true -> startsWithSpace token = false ->
  exec (scheme +:+ ws +:+ token) = Some token.
Proof.
  intros Hscheme Hws Hall Ht Hd Hs. unfold exec.
  rewrite (literal_complete "Bearer" scheme (ws +:+ token)) by exact Hscheme.
  apply spacesThenToken_complete; assumption.
Qed.

Lemma bearer_exec_complete_witness :
  exec ("bearer" +:+ String (ascii_of_N 9) " " +:+ "abc.def.ghi") = Some "abc.def.ghi".
Proof.
  apply (bearer_exec_complete "bearer" (String (ascii_of_N 9) " ") "abc.def.ghi");
    try reflexivity; discriminate.
Defined.

End BearerFacts.

(** ** Escaping and the trailing slash *)

Lemma escape_cons (c : ascii) (rest : string) :
  D365Connector.escapeODataLiteral (String c rest) =
    if Ascii.eqb c "'" then String "'" (String "'" (D365Connector.escapeODataLiteral rest))
    else String c (D365Connector.escapeODataLiteral rest).
Proof.
  unfold D365Connector.escapeODataLiteral. simpl.
  destruct (Ascii.eqb c "'"); reflexivity.
Qed.

(** X3. The escaped value can be read back: collapsing the doubled quotes gives
    the value again, so two values never escape to the same literal. *)
Theorem escape_round_trip (v1 v2 : string) :
  collapseQuotes (D365Connector.escapeODataLiteral v1) = v1
  /\ (D365Connector.escapeODataLiteral v1 = D365Connector.escapeODataLiteral v2 -> v1 = v2).
Proof.
  assert (Hrt : forall v, collapseQuotes (D365Connector.escapeODataLiteral v) = v).
  { induction v as [| c rest IH]; [reflexivity |].
    rewrite escape_cons. destruct (Ascii.eqb c "'") eqn:Hc.
    - apply Ascii.eqb_eq in Hc. subst c. simpl. rewrite IH. reflexivity.
    - simpl. rewrite Hc, IH. reflexivity. }
  split; [apply Hrt |].
  intros Heq. rewrite <- (Hrt v1), <- (Hrt v2), Heq. reflexivity.
Qed.

Lemma escape_round_trip_witness :
  D365Connector.escapeODataLiteral "O'Brien" = D365Connector.escapeODataLiteral "O'Brien"
  /\ collapseQuotes (D365Connector.escapeODataLiteral "O'Brien") = "O'Brien".
Proof.
  split; [reflexivity |].
  exact (proj1 (escape_round_trip "O'Brien" "O'Brien")).
Defined.

(** X4. In the escaped value every quote comes with its double, and the value
    grows by one character per quote. *)
Theorem escape_quotes_paired (value : string) :
  quotesPaired (D365Connector.escapeODataLiteral value) = true
  /\ String.length (D365Connector.escapeODataLiteral value)
     = (String.length value + countQuotes value)%nat.
Proof.
  induction value as [| c rest [IH1 IH2]]; [split; reflexivity |].
  rewrite escape_cons. destruct (Ascii.eqb c "'") eqn:Hc.
  - split.
    + simpl. exact IH1.
    + simpl. rewrite Hc, IH2. lia.
  - split.
    + simpl. rewrite Hc. exact IH1.
    + simpl. rewrite Hc, IH2. reflexivity.
Qed.

Lemma stripTrailingSlash_cons (c : ascii) (rest : string) :
  rest <> "" ->
  Js.stripTrailingSlash (String c rest) = String c (Js.stripTrailingSlash rest).
Proof. destruct rest; [congruence | reflexivity]. Qed.

(** X5. [FO_URL] loses exactly one trailing slash: a base written with one is
    the base, a base written without is unchanged. *)
Theorem stripTrailingSlash_one (s : string) :
  Js.stripTrailingSlash (s +:+ "/") = s
  /\ (endsWithSlash s = false -> Js.stripTrailingSlash s = s).
Proof.
  split.
  - induction s as [| c rest IH]; [reflexivity |].
    change (String c rest +:+ "/") with (String c (rest +:+ "/")).
    rewrite stripTrailingSlash_cons, IH; [reflexivity |].
    destruct rest; discriminate.
  - induction s as [| c rest IH]; [reflexivity |].
    destruct rest as [| c' rest'].
    + simpl. intros ->. reflexivity.
    + intros H. rewrite stripTrailingSlash_cons by discriminate.
      rewrite IH; [reflexivity | exact H].
Qed.

Lemma stripTrailingSlash_one_witness :
  endsWithSlash "https://fo.example//" = true
  /\ endsWithSlash "https://fo.example" = false
  /\ Js.stripTrailingSlash "https://fo.example" = "https://fo.example".
Proof.
  split; [reflexivity |]. split; [reflexivity |].
  apply (stripTrailingSlash_one "https://fo.example"). reflexivity.
Defined.

(** ** What a program can do, read off its actions *)

Section Footprint.

Context {A : Type} (net : Network).

Lemma Only_bind {B} (PS : SyncAction -> Prop) (PA : AsyncAction -> Prop)
    (p : Prog A) (f : A -> Prog B) :
  Only PS PA p -> (forall a, Only PS PA (f a)) -> Only PS PA (bind p f).
Proof.
  intros Hp Hf. induction p as [a | e | a k IH | a k IH]; simpl in *; auto.
  - destruct Hp as (Ha & Hk). split; auto.
  - destruct Hp as (Ha & Hk). split; auto.
Qed.

Lemma Only_tryCatch (PS : SyncAction -> Prop) (PA : AsyncAction -> Prop)
    (p : Prog A) (handler : JsError -> Prog A) :
  Only PS PA p -> (forall e, Only PS PA (handler e)) -> Only PS PA (tryCatch p handler).
Proof.
  intros Hp Hh. induction p as [a | e | a k IH | a k IH]; simpl in *; auto.
  - destruct Hp as (Ha & Hk). split; auto.
  - destruct Hp as (Ha & Hk). split; auto.
Qed.

Lemma run_clock (p : Prog A) (w : World) : clock (snd (run net p w)) = clock w.
Proof.
  revert w. induction p as [a | e | a k IH | a k IH]; intros w; simpl; auto.
  - rewrite IH. destruct a; reflexivity.
  - rewrite IH. reflexivity.
Qed.

Lemma run_keeps_userToken (PA : AsyncAction -> Prop) (p : Prog A) (w : World) :
  Only (fun a => ~ writesUserToken a) PA p ->
  userToken (snd (run net p w)) = userToken w.
Proof.
  revert w. induction p as [a | e | a k IH | a k IH]; intros w Hp; simpl in *; auto.
  - destruct Hp as (Ha & Hk). rewrite IH by apply Hk.
    destruct a; simpl in *; try reflexivity. exfalso. apply Ha. exact I.
  - destruct Hp as (Ha & Hk). rewrite IH by apply Hk. reflexivity.
Qed.

Lemma run_keeps_cache (PA : AsyncAction -> Prop) (p : Prog A) (w : World) :
  Only (fun a => ~ writesCache a) PA p ->
  oboCache (snd (run net p w)) = oboCache w.
Proof.
  revert w. induction p as [a | e | a k IH | a k IH]; intros w Hp; simpl in *; auto.
  - destruct Hp as (Ha & Hk). rewrite IH by apply Hk.
    destruct a; simpl in *; try reflexivity. exfalso. apply Ha. exact I.
  - destruct Hp as (Ha & Hk). rewrite IH by apply Hk. reflexivity.
Qed.

Lemma verifyCalls_app (t1 t2 : list Obs) :
  verifyCalls (t1 ++ t2) = (verifyCalls t1 + verifyCalls t2)%nat.
Proof.
  induction t1 as [| o t1 IH]; simpl; auto.
  destruct o as [[] | | |]; simpl; rewrite IH; reflexivity.
Qed.

Lemma run_never_verifies (PS : SyncAction -> Prop) (p : Prog A) (w : World) :
  Only PS (fun a => ~ verifies a) p ->
  verifyCalls (trace (snd (run net p w))) = verifyCalls (trace w).
Proof.
  revert w. induction p as [a | e | a k IH | a k IH]; intros w Hp; simpl in *; auto.
  - destruct Hp as (Ha & Hk). rewrite IH by apply Hk.
    destruct a; simpl; rewrite ?verifyCalls_app; simpl; lia.
  - destruct Hp as (Ha & Hk). rewrite IH by apply Hk.
    simpl. rewrite verifyCalls_app.
    destruct a; simpl in *; first [lia | exfalso; apply Ha; exact I].
Qed.


End Footprint.

Lemma Only_weaken {A} (PS PS' : SyncAction -> Prop) (PA PA' : AsyncAction -> Prop)
    (p : Prog A) :
  (forall a, PS a -> PS' a) -> (forall a, PA a -> PA' a) ->
  Only PS PA p -> Only PS' PA' p.
Proof.
  intros HS HA. induction p as [a | e | a k IH | a k IH]; simpl; auto.
  - intros (Ha & Hk). split; auto.
  - intros (Ha & Hk). split; auto.
Qed.

Ltac footprint :=
  repeat first
    [ exact I
    | progress intros
    | match goal with
      | |- _ /\ _ => split
      | |- ~ _ => let H := fresh in intro H; exact H
      | |- Only _ _ (match ?x with _ => _ end) => destruct x
      | |- Only _ _ ?p =>
          match p with
          | context [match ?x with _ => _ end] => destruct x
          end
      end
    | progress simpl ].

Section ConnectorFootprints.

Variable h : Host.

Import D365Connector.

(** The validator performs no synchronous action at all. *)
Lemma validate_footprint (token : string) :
  Only (fun _ => False) (fun _ => True) (validateInboundJwt h token).
Proof. unfold validateInboundJwt, jwtVerify, await. footprint. Qed.

Lemma authMiddleware_footprint (auth : HeaderValue) :
  Only (fun a => ~ writesUserToken a /\ ~ writesCache a) (fun _ => True)
    (authMiddleware h auth).
Proof.
  unfold authMiddleware. destruct auth as [| a | l]; [footprint | | footprint].
  destruct (negb (Js.truthy a)); [footprint |].
  destruct (BearerPattern.exec a) as [token |]; [| footprint].
  destruct (negb (Js.truthy token)); [footprint |].
  apply Only_tryCatch; [| footprint].
  apply Only_bind; [| footprint].
  apply (Only_weaken (fun _ => False) _ (fun _ => True) _); [tauto | tauto |].
  apply validate_footprint.
Qed.

Lemma getFo_footprint (assertionJwt : string) :
  Only (fun a => ~ writesUserToken a /\ ~ speaks a) (fun a => ~ verifies a)
    (getFoAccessTokenFromObo h assertionJwt).
Proof.
  unfold getFoAccessTokenFromObo, await, do, fetched, readJson. footprint.
Qed.

Lemma fetchFo_footprint (pathname : string) (init : option RequestInit) :
  Only (fun a => ~ writesUserToken a /\ ~ speaks a) (fun a => ~ verifies a)
    (fetchFo h pathname init).
Proof.
  unfold fetchFo, getCurrentContext. apply Only_bind; [footprint |].
  intros ctx. destruct (negb (Js.truthy ctx)); [footprint |].
  apply Only_bind; [apply getFo_footprint |].
  intros foToken. unfold await, fetched, typeError. footprint.
Qed.

Lemma readRecord_footprint (entity : string) (q : option string) :
  Only (fun a => ~ writesUserToken a /\ ~ speaks a) (fun a => ~ verifies a)
    (readRecord h entity q).
Proof.
  unfold readRecord. apply Only_bind; [apply fetchFo_footprint |]. footprint.
Qed.

Lemma createRecord_footprint (entity : string) (data : Json) :
  Only (fun a => ~ writesUserToken a /\ ~ speaks a) (fun a => ~ verifies a)
    (createRecord h entity data).
Proof.
  unfold createRecord, readJson. apply Only_bind; [apply fetchFo_footprint |]. footprint.
Qed.

End ConnectorFootprints.

(** ** The middleware and the validator, further *)

Section MiddlewareFacts.

Variable h : Host.
Variable net : Network.

Import D365Connector.

Lemma exec_nonempty (a token : string) :
  BearerPattern.exec a = Some token -> Js.truthy a = true /\ Js.truthy token = true.
Proof.
  intros H. split.
  - destruct a; [discriminate H | reflexivity].
  - unfold BearerPattern.exec in H.
    destruct (BearerPattern.literal "Bearer" a) as [rest |]; [| discriminate H].
    apply spacesThenToken_sound in H. destruct H as (Hne & _).
    destruct token; [congruence | reflexivity].
Qed.

Lemma bearerToken_exec (auth : HeaderValue) :
  bearerToken auth =
    match auth with
    | Single a => BearerPattern.exec a
    | Absent | Multi _ => None
    end.
Proof.
  destruct auth as [| a | l]; try reflexivity. unfold bearerToken.
  destruct (BearerPattern.exec a) as [token |] eqn:He.
  - destruct (exec_nonempty a token He) as (-> & ->). reflexivity.
  - destruct (Js.truthy a); reflexivity.
Qed.

(** X6. A header that carries no bearer token is answered at once, with status
    200: nothing but the one response is added to the world, and no key set
    is contacted.  The message is ["Missing Authorization header"] for an
    absent, multi-valued or empty header and ["Invalid Authorization
    header"] for any other value; the two emptiness tests of the code add
    nothing to the pattern, so ["Missing token"] is never the answer. *)
Theorem middleware_header_rejection (auth : HeaderValue) (w : World) :
  bearerToken auth = None ->
  (match auth with Single a => BearerPattern.exec a | _ => None end) = None
  /\ run net (authMiddleware h auth) w =
       (Resolved tt,
        log (OResponse 200
               (rejection (match auth with
                           | Single (String _ _) => "Invalid Authorization header"
                           | _ => "Missing Authorization header"
                           end))) w).
Proof.
  intros Hnone. split; [rewrite <- bearerToken_exec; exact Hnone |].
  rewrite bearerToken_exec in Hnone.
  destruct auth as [| a | l]; try reflexivity.
  unfold authMiddleware. rewrite Hnone.
  destruct a; reflexivity.
Qed.

(** X7. The middleware never stores the assertion it has validated: the shared
    field, the cache and the clock are what they were.  On a connector whose
    field is empty, a proxy call made after a successful run of the
    middleware is therefore still rejected for a missing assertion. *)
Theorem middleware_stores_nothing (auth : HeaderValue) (w : World)
    (entity key : string) (q : option string) (data : Json) :
  let w' := snd (run net (authMiddleware h auth) w) in
  userToken w' = userToken w
  /\ oboCache w' = oboCache w
  /\ clock w' = clock w
  /\ (userToken w = "" ->
      fst (run net (readRecord h entity q) w')
        = Rejected (Reason "Missing user assertion for OBO")
      /\ fst (run net (createRecord h entity data) w')
        = Rejected (Reason "Missing user assertion for OBO")
      /\ fst (run net (updateRecord h entity key data) w')
        = Rejected (Reason "Missing user assertion for OBO")
      /\ fst (run net (deleteRecord h entity key) w')
        = Rejected (Reason "Missing user assertion for OBO")).
Proof.
  intros w'.
  assert (Hu : userToken w' = userToken w).
  { apply (run_keeps_userToken net (fun _ => True)).
    eapply Only_weaken; [| | apply authMiddleware_footprint]; simpl; tauto. }
  assert (Hc : oboCache w' = oboCache w).
  { apply (run_keeps_cache net (fun _ => True)).
    eapply Only_weaken; [| | apply authMiddleware_footprint]; simpl; tauto. }
  split; [exact Hu |]. split; [exact Hc |]. split; [apply run_clock |].
  intros Hempty. rewrite <- Hu in Hempty.
  unfold readRecord, createRecord, updateRecord, deleteRecord.
  rewrite !run_bind, !(run_fetchFo_missing h net) by exact Hempty.
  repeat split.
Qed.

Lemma issuerAllowed_iff (p : Payload) :
  issuerAllowed h p = true <-> iss p = Some (ISSUER_V2 h) \/ iss p = Some (ISSUER_V1 h).
Proof.
  split; [apply issuerAllowed_iss |].
  unfold issuerAllowed. intros [-> | ->]; unfold Js.String_, Js.includes.
  - rewrite String.eqb_refl. reflexivity.
  - rewrite (String.eqb_refl (ISSUER_V1 h)).
    destruct (String.eqb (ISSUER_V2 h) (ISSUER_V1 h)); reflexivity.
Qed.

(** X8. The issuer check does not depend on the key set that verified the
    token: a token of the v1 issuer verified by the v2 key set is accepted
    on the first attempt, with one key-set call.  A token that both key
    sets verify but whose [iss] is absent or is neither issuer is rejected
    with ["Unexpected issuer"] after two calls. *)
Theorem issuer_check_is_keyset_independent (token : string) (w : World) (p2 p1 : Payload) :
  let v2 := JwtVerify token JwksV2 (API_EXPECTED_AUDIENCE h) in
  let v1 := JwtVerify token JwksV1 (API_EXPECTED_AUDIENCE h) in
  answer net v2 (trace w) = Verified p2 ->
  (iss p2 = Some (ISSUER_V1 h) ->
   run net (validateInboundJwt h token) w = (Resolved p2, log (ONet v2) w))
  /\ (answer net v1 (trace (log (ONet v2) w)) = Verified p1 ->
      iss p2 <> Some (ISSUER_V2 h) -> iss p2 <> Some (ISSUER_V1 h) ->
      iss p1 <> Some (ISSUER_V2 h) -> iss p1 <> Some (ISSUER_V1 h) ->
      run net (validateInboundJwt h token) w
        = (Rejected (Reason "Unexpected issuer"), log (ONet v1) (log (ONet v2) w))).
Proof.
  intros v2 v1 H2. rewrite run_validate. unfold validateStep. fold v2 v1.
  rewrite H2. split.
  - intros Hiss. assert (Ha : issuerAllowed h p2 = true) by (apply issuerAllowed_iff; auto).
    rewrite Ha. reflexivity.
  - intros H1 Ha2 Hb2 Ha1 Hb1.
    assert (Hn2 : issuerAllowed h p2 = false).
    { destruct (issuerAllowed h p2) eqn:E; [| reflexivity].
      apply issuerAllowed_iff in E. tauto. }
    assert (Hn1 : issuerAllowed h p1 = false).
    { destruct (issuerAllowed h p1) eqn:E; [| reflexivity].
      apply issuerAllowed_iff in E. tauto. }
    rewrite Hn2, H1, Hn1. reflexivity.
Qed.

End MiddlewareFacts.

Lemma middleware_header_rejection_witness :
  bearerToken (Single "Bearer") = None
  /\ responses (trace (snd (run Sample.forgedNet
                              (D365Connector.authMiddleware Sample.host (Single "Bearer")) Sample.world0)))
     = [(200%N, D365Connector.rejection "Invalid Authorization header")].
Proof.
  split; [reflexivity |].
  rewrite (proj2 (middleware_header_rejection Sample.host Sample.forgedNet
                    (Single "Bearer") Sample.world0 eq_refl)).
  reflexivity.
Defined.

Lemma middleware_stores_nothing_witness :
  let net := Sample.mintingNet (Some 3600) 200 in
  let w' := snd (run net (D365Connector.authMiddleware Sample.host (Single "Bearer tokA.a.a"))
                   Sample.world0) in
  userToken Sample.world0 = ""
  /\ nextCalls (trace w') = [Some "tokA.a.a"]
  /\ fst (run net (D365Connector.readRecord Sample.host "EmployeesV2" None) w')
     = Rejected (Reason "Missing user assertion for OBO").
Proof.
  intros net w'. split; [reflexivity |]. split; [vm_compute; reflexivity |].
  destruct (middleware_stores_nothing Sample.host net (Single "Bearer tokA.a.a")
              Sample.world0 "EmployeesV2" "k" None JNull) as (_ & _ & _ & H).
  exact (proj1 (H eq_refl)).
Defined.

Lemma issuer_check_is_keyset_independent_witness :
  let net := Sample.mintingNet None 200 in
  fst (run net (D365Connector.validateInboundJwt Sample.host "x.y.z") Sample.world0)
    = Resolved {| iss := Some "https://sts.windows.net/contoso/"; sub := Some "u1" |}
  /\ verifyCalls (trace (snd (run net (D365Connector.validateInboundJwt Sample.host "x.y.z") Sample.world0)))
     = 1%nat.
Proof.
  intros net.
  destruct (issuer_check_is_keyset_independent Sample.host net "x.y.z" Sample.world0
              {| iss := Some "https://sts.windows.net/contoso/"; sub := Some "u1" |}
              {| iss := None; sub := None |} eq_refl) as (H & _).
  rewrite (H eq_refl). split; reflexivity.
Defined.


(** ** The downstream request *)

Section HeadersFacts.

Import Headers.

Lemma values_removeAll_same (name name' : string) (hs : list (string * string)) :
  lower name = lower name' -> values name (removeAll name' hs) = [].
Proof.
  intros Hn. induction hs as [| [n v] hs IH]; [reflexivity |].
  simpl. destruct (sameName n name') eqn:E; [exact IH |].
  simpl. unfold sameName in *. rewrite Hn, E. exact IH.
Qed.

Lemma values_removeAll_other (name other : string) (hs : list (string * string)) :
  lower name <> lower other -> values name (removeAll other hs) = values name hs.
Proof.
  intros Hne. induction hs as [| [n v] hs IH]; [reflexivity |].
  simpl. destruct (sameName n other) eqn:E.
  - unfold sameName in *. apply String.eqb_eq in E.
    destruct (String.eqb (lower n) (lower name)) eqn:E'; [| exact IH].
    apply String.eqb_eq in E'. congruence.
  - simpl. rewrite IH. reflexivity.
Qed.

Lemma values_setIn_same (name name' value : string) (hs : list (string * string)) :
  lower name = lower name' -> values name (setIn name' value hs) = [value].
Proof.
  intros Hn. induction hs as [| [n v] hs IH]; simpl.
  - unfold sameName. rewrite Hn, String.eqb_refl. reflexivity.
  - destruct (sameName n name') eqn:E; simpl.
    + unfold sameName in *. rewrite Hn, E.
      rewrite values_removeAll_same; [reflexivity | exact Hn].
    + unfold sameName in *. rewrite Hn, E. fold (sameName n name'). exact IH.
Qed.

Lemma values_setIn_other (name other value : string) (hs : list (string * string)) :
  lower name <> lower other -> values name (setIn other value hs) = values name hs.
Proof.
  intros Hne. induction hs as [| [n v] hs IH]; simpl.
  - unfold sameName. destruct (String.eqb (lower other) (lower name)) eqn:E; [| reflexivity].
    apply String.eqb_eq in E. congruence.
  - destruct (sameName n other) eqn:E; simpl.
    + unfold sameName in *. apply String.eqb_eq in E.
      destruct (String.eqb (lower n) (lower name)) eqn:E'.
      * apply String.eqb_eq in E'. congruence.
      * apply values_removeAll_other. exact Hne.
    + rewrite IH. reflexivity.
Qed.

Lemma getFrom_setIn_same (name name' value : string) (hs : list (string * string)) :
  lower name = lower name' -> getFrom name (setIn name' value hs) = Some value.
Proof. intros Hn. unfold getFrom. rewrite values_setIn_same by exact Hn. reflexivity. Qed.

Lemma getFrom_setIn_other (name other value : string) (hs : list (string * string)) :
  lower name <> lower other -> getFrom name (setIn other value hs) = getFrom name hs.
Proof. intros Hne. unfold getFrom. rewrite values_setIn_other by exact Hne. reflexivity. Qed.

Lemma getFrom_ci (name name' : string) (hs : list (string * string)) :
  lower name = lower name' -> getFrom name hs = getFrom name' hs.
Proof.
  intros Hn. unfold getFrom.
  assert (Hv : values name hs = values name' hs).
  { induction hs as [| [n v] hs IH]; [reflexivity |].
    simpl. unfold sameName. rewrite Hn, IH. reflexivity. }
  rewrite Hv. reflexivity.
Qed.

Example normalize_strips_both_ends :
  normalize (String (ascii_of_N 9) "  a b " +:+ String (ascii_of_N 13) "") = "a b".
Proof. reflexivity. Qed.

Example set_replaces_first_and_drops_others :
  Headers.set "ACCEPT" " x " [("accept", "a"); ("Host", "h"); ("Accept", "b")]
    = Some [("accept", "x"); ("Host", "h")].
Proof. reflexivity. Qed.

Example get_joins_repeated_names :
  Headers.get "Accept" [("accept", "a"); ("Host", "h"); ("Accept", "b")]
    = Some (Some "a, b").
Proof. reflexivity. Qed.

Example new_rejects_bad_name : Headers.new [("bad name", "x")] = None.
Proof. reflexivity. Qed.

Example set_rejects_line_break :
  Headers.set "Authorization" ("Bearer a" +:+ String (ascii_of_N 10) "b") [] = None.
Proof. reflexivity. Qed.

Lemma set_authorization (value : string) (hs : list (string * string)) :
  Headers.set "Authorization" value hs =
    if validValue (normalize value)
    then Some (setIn "Authorization" (normalize value) hs) else None.
Proof. reflexivity. Qed.

End HeadersFacts.

Section ProxyFacts.

Variable h : Host.
Variable net : Network.

Import D365Connector.

Lemma truthy_nonempty (s : string) : s <> "" -> Js.truthy s = true.
Proof. destruct s; [congruence | reflexivity]. Qed.

(** What [fetchFo] does once the shared field holds an assertion. *)
Lemma run_fetchFo (pathname : string) (init : option RequestInit) (w : World) :
  userToken w <> "" ->
  run net (fetchFo h pathname init) w =
    match run net (getFoAccessTokenFromObo h (userToken w)) w with
    | (Resolved foToken, w1) =>
        match downstreamInit init foToken with
        | Some rq =>
            let call := FetchFo (downstreamUrl h pathname) rq in
            (match answer net call (trace w1) with
             | Fetched resp => Resolved resp
             | FetchFails name => Rejected (Foreign name)
             end, log (ONet call) w1)
        | None => (Rejected (Foreign "TypeError"), w1)
        end
    | (Rejected e, w1) => (Rejected e, w1)
    end.
Proof.
  intros Hu. unfold fetchFo, getCurrentContext.
  rewrite run_bind.
  change (run net (do ReadUserToken) w) with (Resolved (userToken w), w).
  cbv iota beta. rewrite (truthy_nonempty _ Hu). cbv iota beta.
  change (negb true) with false. cbv iota.
  rewrite run_bind.
  destruct (run net (getFoAccessTokenFromObo h (userToken w)) w) as [[foToken | e] w1];
    [| reflexivity].
  unfold downstreamUrl, downstreamInit.
  destruct (Headers.new _) as [hs0 |]; [| reflexivity].
  cbn [run bind typeError].
  destruct (Headers.set "Authorization" _ hs0) as [hs1 |]; [| reflexivity].
  cbn [run bind typeError].
  change (Headers.set "Accept" "application/json" hs1)
    with (Some (Headers.setIn "Accept" "application/json" hs1)).
  cbn [run bind typeError].
  set (hasBody := match init with
                  | Some i => match body i with Some b => Js.truthy b | None => false end
                  | None => false
                  end).
  destruct hasBody.
  - change (Headers.get "Content-Type" (Headers.setIn "Accept" "application/json" hs1))
      with (Some (Headers.getFrom "Content-Type"
                    (Headers.setIn "Accept" "application/json" hs1))).
    cbn [run bind typeError andb].
    destruct (negb _).
    + change (Headers.set "Content-Type" "application/json"
                (Headers.setIn "Accept" "application/json" hs1))
        with (Some (Headers.setIn "Content-Type" "application/json"
                      (Headers.setIn "Accept" "application/json" hs1))).
      cbn [run bind typeError await answer].
      destruct (foEndpoint net (trace w1) _ _); reflexivity.
    + cbn [run bind typeError await answer].
      destruct (foEndpoint net (trace w1) _ _); reflexivity.
  - cbn [run bind typeError await answer andb].
    destruct (foEndpoint net (trace w1) _ _); reflexivity.
Qed.


(** X10. [Content-Type: application/json] is set exactly when the call has a
    non-empty body and the caller's headers, once normalised and the values
    of a repeated name joined, give no non-empty [Content-Type]; otherwise
    what the caller gave is what is sent, and a call without body gets
    none added. *)
Theorem downstream_content_type (pathname : string) (init : option RequestInit)
    (w w1 : World) (foToken : string) (hs0 : list (string * string)) :
  userToken w <> "" ->
  run net (getFoAccessTokenFromObo h (userToken w)) w = (Resolved foToken, w1) ->
  Headers.new (match init with Some i => headers i | None => [] end) = Some hs0 ->
  Headers.validValue (Headers.normalize ("Bearer " +:+ foToken)) = true ->
  let given := Headers.getFrom "content-type" hs0 in
  let hasBody :=
    match init with
    | Some i => match body i with Some b => Js.truthy b | None => false end
    | None => false
    end in
  exists rq,
    trace (snd (run net (fetchFo h pathname init) w))
      = (trace w1 ++ [ONet (FetchFo (downstreamUrl h pathname) rq)])%list
    /\ Headers.getFrom "content-type" (headers rq) =
         if hasBody then
           match given with
           | Some v => if Js.truthy v then Some v else Some "application/json"
           | None => Some "application/json"
           end
         else given.
Proof.
  intros Hu Hget Hnew Hvalid given hasBody. rewrite (run_fetchFo _ _ _ Hu), Hget.
  unfold downstreamInit. rewrite Hnew, set_authorization, Hvalid. fold hasBody.
  eexists. split; [reflexivity |].
  set (hs2 := Headers.setIn "Accept" "application/json"
                (Headers.setIn "Authorization" _ hs0)).
  assert (H2 : forall name, Headers.lower name = "content-type" ->
                            Headers.getFrom name hs2 = Headers.getFrom name hs0).
  { intros name Hn. unfold hs2.
    rewrite !getFrom_setIn_other by (rewrite Hn; vm_compute; discriminate). reflexivity. }
  rewrite (H2 "Content-Type" eq_refl).
  rewrite (getFrom_ci "Content-Type" "content-type" hs0 eq_refl).
  change (Headers.getFrom "content-type" hs0) with given.
  assert (Hfinal : Headers.getFrom "content-type"
                     (if hasBody && negb (match given with
                                          | Some v => Js.truthy v
                                          | None => false
                                          end)
                      then Headers.setIn "Content-Type" "application/json" hs2 else hs2)
                   = if hasBody then
                       match given with
                       | Some v => if Js.truthy v then Some v else Some "application/json"
                       | None => Some "application/json"
                       end
                     else given).
  { destruct hasBody; simpl.
    - destruct given as [v |] eqn:Hg.
      + destruct (Js.truthy v); simpl.
        * rewrite (H2 "content-type" eq_refl). exact Hg.
        * apply getFrom_setIn_same. reflexivity.
      + simpl. apply getFrom_setIn_same. reflexivity.
    - apply (H2 "content-type" eq_refl). }
  destruct init as [i |]; exact Hfinal.
Qed.

(** X11. A failed token exchange is raised by every operation, the writes
    included: no error value is returned, nothing is logged and no
    downstream call is made. *)
Theorem exchange_failure_raises_in_every_operation (entity key : string)
    (q : option string) (data : Json) (w : World) (resp : Response TokenJson) :
  userToken w <> "" ->
  usable (oboCache w !! cacheKey h (userToken w)) (clock w / 1000) = false ->
  answer net (FetchToken (tokenUrl h) (oboParams h (userToken w))) (trace w) = Fetched resp ->
  ok resp = false ->
  let e := Reason ("OBO token exchange failed: " +:+ Js.showN (status resp)
                   +:+ " " +:+ text resp) in
  let w1 := log (ONet (FetchToken (tokenUrl h) (oboParams h (userToken w)))) w in
  run net (createRecord h entity data) w = (Rejected e, w1)
  /\ run net (readRecord h entity q) w = (Rejected e, w1)
  /\ run net (updateRecord h entity key data) w = (Rejected e, w1)
  /\ run net (deleteRecord h entity key) w = (Rejected e, w1).
Proof.
  intros Hu Hmiss Hresp Hok e w1.
  assert (Hf : forall pathname init,
             run net (fetchFo h pathname init) w = (Rejected e, w1)).
  { intros pathname init. rewrite (run_fetchFo _ _ _ Hu), (run_getFo_miss _ _ _ _ Hmiss).
    unfold exchangeStep. rewrite Hresp, Hok. reflexivity. }
  unfold createRecord, readRecord, updateRecord, deleteRecord.
  rewrite !run_bind, !Hf. repeat split.
Qed.

(** X12. On a success status the writes resolve to the parsed body and are
    rejected when the body is not JSON (an empty 204 body, say), whereas
    the read hands over the response without reading it. *)
Theorem success_body_is_parsed_by_writes_only (entity key : string) (q : option string)
    (data : Json) (w w1 : World) (resp : Response Json) :
  ok resp = true ->
  let parsed :=
    match json resp with
    | Some j => Resolved j
    | None => Rejected (Foreign "SyntaxError")
    end in
  (run net (fetchFo h ("/data/" +:+ entity)
              (Some {| method := "POST"; headers := [];
                       body := Some (JSON_stringify h data) |})) w = (Resolved resp, w1) ->
   run net (createRecord h entity data) w = (parsed, w1))
  /\ (run net (fetchFo h ("/data/" +:+ entity +:+ "(" +:+ key +:+ ")")
                 (Some {| method := "PATCH"; headers := [];
                          body := Some (JSON_stringify h data) |})) w = (Resolved resp, w1) ->
      run net (updateRecord h entity key data) w = (parsed, w1))
  /\ (run net (fetchFo h ("/data/" +:+ entity +:+ "(" +:+ key +:+ ")")
                 (Some {| method := "DELETE"; headers := []; body := None |})) w
      = (Resolved resp, w1) ->
      run net (deleteRecord h entity key) w = (parsed, w1))
  /\ (run net (fetchFo h (match q with
                          | Some qs => if Js.truthy qs
                                       then "/data/" +:+ entity +:+ "?" +:+ qs
                                       else "/data/" +:+ entity
                          | None => "/data/" +:+ entity
                          end)
                 (Some {| method := "GET"; headers := []; body := None |})) w
      = (Resolved resp, w1) ->
      run net (readRecord h entity q) w = (Resolved resp, w1)).
Proof.
  intros Hok parsed.
  unfold createRecord, updateRecord, deleteRecord, readRecord, parsed.
  repeat split; intros Hf; rewrite run_bind, Hf, Hok; simpl;
    unfold readJson; destruct (json resp); reflexivity.
Qed.

End ProxyFacts.

(** ** The token cache, further *)

Section CacheFacts.

Variable h : Host.
Variable net : Network.

Import D365Connector.

Lemma run_getFo_stored (a : string) (w : World) (resp : Response TokenJson) (j : TokenJson) :
  usable (oboCache w !! cacheKey h a) (clock w / 1000) = false ->
  answer net (FetchToken (tokenUrl h) (oboParams h a)) (trace w) = Fetched resp ->
  ok resp = true ->
  json resp = Some j ->
  run net (getFoAccessTokenFromObo h a) w =
    (Resolved (access_token j),
     cacheSet (cacheKey h a)
       {| accessToken := access_token j;
          expiresAt := clock w / 1000 + numOr (expires_in j) 3600 |}
       (log (ONet (FetchToken (tokenUrl h) (oboParams h a))) w)).
Proof.
  intros Hmiss Hresp Hok Hjson. rewrite (run_getFo_miss _ _ _ _ Hmiss).
  unfold exchangeStep. rewrite Hresp, Hok, Hjson. reflexivity.
Qed.

(** X21. When the entry of the fingerprint is absent or no longer usable
    ([expiresAt - 60 <= now]) and the exchange succeeds with a lifetime that
    is absent or not zero, the call performs exactly one exchange call,
    returns the new token and overwrites the entry of the fingerprint with
    [{accessToken, expiresAt}], [expiresAt] being the whole-second clock
    reading of the call plus [expires_in], or plus 3600 when [expires_in]
    is absent. *)
Theorem cache_refresh_stores_new_token (a : string) (w : World)
    (resp : Response TokenJson) (j : TokenJson) :
  usable (oboCache w !! cacheKey h a) (clock w / 1000) = false ->
  answer net (FetchToken (tokenUrl h) (oboParams h a)) (trace w) = Fetched resp ->
  ok resp = true ->
  json resp = Some j ->
  expires_in j <> Some 0 ->
  let result := run net (getFoAccessTokenFromObo h a) w in
  let entry := {| accessToken := access_token j;
                  expiresAt := clock w / 1000 +
                               match expires_in j with Some e => e | None => 3600 end |} in
  fst result = Resolved (access_token j)
  /\ trace (snd result)
     = (trace w ++ [ONet (FetchToken (tokenUrl h) (oboParams h a))])%list
  /\ exchangeCalls (trace (snd result)) = S (exchangeCalls (trace w))
  /\ oboCache (snd result) = <[cacheKey h a := entry]> (oboCache w)
  /\ oboCache (snd result) !! cacheKey h a = Some entry.
Proof.
  intros Hmiss Hresp Hok Hjson Hnz result entry. unfold result.
  rewrite (run_getFo_stored a w resp j Hmiss Hresp Hok Hjson).
  assert (He : numOr (expires_in j) 3600
               = match expires_in j with Some e => e | None => 3600 end).
  { unfold numOr. destruct (expires_in j) as [e |]; [| reflexivity].
    destruct (e =? 0) eqn:E; [| reflexivity].
    apply Z.eqb_eq in E. subst e. congruence. }
  rewrite He. fold entry. simpl.
  split; [reflexivity |]. split; [reflexivity |].
  split; [rewrite exchangeCalls_app; simpl; lia |].
  split; [reflexivity | apply lookup_insert_eq].
Qed.

(** The second of two calls, after the first has stored its token. *)
Lemma second_call_after_exchange (a : string) (w : World) (resp : Response TokenJson)
    (j : TokenJson) (t2 : Z) :
  usable (oboCache w !! cacheKey h a) (clock w / 1000) = false ->
  answer net (FetchToken (tokenUrl h) (oboParams h a)) (trace w) = Fetched resp ->
  ok resp = true ->
  json resp = Some j ->
  let w1 := snd (run net (getFoAccessTokenFromObo h a) w) in
  let until := clock w / 1000 + numOr (expires_in j) 3600 - 60 in
  let second := run net (getFoAccessTokenFromObo h a) (atTime t2 w1) in
  (t2 < until * 1000 -> second = (Resolved (access_token j), atTime t2 w1))
  /\ (until * 1000 <= t2 ->
      exchangeCalls (trace (snd second)) = S (exchangeCalls (trace w1))).
Proof.
  intros Hmiss Hresp Hok Hjson w1 until second.
  assert (Hw1 : oboCache (atTime t2 w1) !! cacheKey h a =
                Some {| accessToken := access_token j;
                        expiresAt := clock w / 1000 + numOr (expires_in j) 3600 |}).
  { unfold w1. rewrite (run_getFo_stored a w resp j Hmiss Hresp Hok Hjson).
    simpl. apply lookup_insert_eq. }
  split.
  - intros Hlt. unfold second.
    apply (run_getFo_hit h net a (atTime t2 w1) _ Hw1).
    simpl. apply Z.ltb_lt. fold until.
    apply Z.div_lt_upper_bound; lia.
  - intros Hge. unfold second.
    rewrite (run_getFo_miss h net a (atTime t2 w1)).
    + rewrite exchangeStep_trace, exchangeCalls_app. simpl. lia.
    + rewrite Hw1. simpl. apply Z.ltb_ge. fold until.
      apply Z.div_le_lower_bound; lia.
Qed.

(** X13. A token stored at clock [t1] with lifetime [L] (the reply's
    [expires_in], or 3600 when that is absent or zero) is served from the
    cache, with no network call, at every clock reading before
    [(floor(t1/1000) + L - 60) * 1000] milliseconds, and is exchanged anew
    from that reading on. *)
Theorem cache_validity_window (a : string) (w : World) (resp : Response TokenJson)
    (j : TokenJson) (t2 : Z) :
  usable (oboCache w !! cacheKey h a) (clock w / 1000) = false ->
  answer net (FetchToken (tokenUrl h) (oboParams h a)) (trace w) = Fetched resp ->
  ok resp = true ->
  json resp = Some j ->
  let w1 := snd (run net (getFoAccessTokenFromObo h a) w) in
  let until := clock w / 1000 + numOr (expires_in j) 3600 - 60 in
  let second := run net (getFoAccessTokenFromObo h a) (atTime t2 w1) in
  (t2 < until * 1000 -> second = (Resolved (access_token j), atTime t2 w1))
  /\ (until * 1000 <= t2 ->
      exchangeCalls (trace (snd second)) = S (exchangeCalls (trace w1))).
Proof. apply second_call_after_exchange. Qed.

(** X14. A token whose lifetime is 60 seconds or less is stored but never served:
    every later call for the same assertion exchanges again. *)
Theorem short_lived_token_never_served (a : string) (w : World) (resp : Response TokenJson)
    (j : TokenJson) (e t2 : Z) :
  usable (oboCache w !! cacheKey h a) (clock w / 1000) = false ->
  answer net (FetchToken (tokenUrl h) (oboParams h a)) (trace w) = Fetched resp ->
  ok resp = true ->
  json resp = Some j ->
  expires_in j = Some e -> e <> 0 -> e <= 60 ->
  clock w <= t2 ->
  let w1 := snd (run net (getFoAccessTokenFromObo h a) w) in
  is_Some (oboCache w1 !! cacheKey h a)
  /\ exchangeCalls (trace (snd (run net (getFoAccessTokenFromObo h a) (atTime t2 w1))))
     = S (exchangeCalls (trace w1)).
Proof.
  intros Hmiss Hresp Hok Hjson He Hne Hle Ht w1. split.
  - unfold w1. rewrite (run_getFo_stored a w resp j Hmiss Hresp Hok Hjson).
    simpl. rewrite lookup_insert_eq. eauto.
  - apply (second_call_after_exchange a w resp j t2 Hmiss Hresp Hok Hjson).
    rewrite He. unfold numOr. destruct (e =? 0) eqn:E; [apply Z.eqb_eq in E; lia |].
    pose proof (Z.mul_div_le (clock w) 1000 ltac:(lia)) as Hq.
    generalize dependent (clock w / 1000). intros q _ Hq. lia.
Qed.

Lemma getFo_cache_step (a : string) (w : World) :
  let w' := snd (run net (getFoAccessTokenFromObo h a) w) in
  oboCache w' = oboCache w
  \/ exists entry, oboCache w' = <[cacheKey h a := entry]> (oboCache w).
Proof.
  intros w'. unfold w'. rewrite run_getFo.
  assert (Hstep : oboCache (snd (exchangeStep h net a w)) = oboCache w
                  \/ exists entry,
                       oboCache (snd (exchangeStep h net a w))
                       = <[cacheKey h a := entry]> (oboCache w)).
  { unfold exchangeStep.
    destruct (answer net _ (trace w)) as [resp | name]; simpl; auto.
    destruct (ok resp); simpl; auto.
    destruct (json resp); simpl; eauto. }
  destruct (oboCache w !! cacheKey h a) as [c |]; [| exact Hstep].
  destruct (usable (Some c) (clock w / 1000)); [left; reflexivity | exact Hstep].
Qed.

(** X15. Nothing is ever evicted.  Through any sequence of calls, at any clock
    readings, an entry that is in the cache stays in it (expired or not),
    the cache grows by at most one entry per call, and every new key is the
    fingerprint of an assertion that was called. *)
Theorem cache_never_evicts (calls : list (string * Z)) (w : World) :
  let w' := runCalls h net calls w in
  (forall k, is_Some (oboCache w !! k) -> is_Some (oboCache w' !! k))
  /\ (size (oboCache w') <= size (oboCache w) + length calls)%nat
  /\ (forall k, is_Some (oboCache w' !! k) ->
        is_Some (oboCache w !! k)
        \/ exists a, In a (map fst calls) /\ k = cacheKey h a).
Proof.
  revert w. induction calls as [| [a t] rest IH]; intros w; cbn [runCalls length map fst].
  - split; [auto |]. split; [lia | auto].
  - set (w1 := snd (run net (getFoAccessTokenFromObo h a) (atTime t w))).
    destruct (IH w1) as (Hkeep & Hsize & Hnew).
    pose proof (getFo_cache_step a (atTime t w)) as Hstep. fold w1 in Hstep.
    simpl in Hstep.
    split; [| split].
    + intros k Hk. apply Hkeep.
      destruct Hstep as [-> | (entry & ->)]; [exact Hk |].
      apply lookup_insert_is_Some'. right. exact Hk.
    + destruct Hstep as [Heq | (entry & Heq)]; rewrite Heq in Hsize; [lia |].
      rewrite map_size_insert in Hsize.
      destruct (oboCache w !! cacheKey h a); simpl in Hsize; lia.
    + intros k Hk. destruct (Hnew k Hk) as [H1 | (a' & Hin & ->)].
      * destruct Hstep as [Heq | (entry & Heq)]; rewrite Heq in H1; [left; exact H1 |].
        apply lookup_insert_is_Some' in H1. destruct H1 as [<- | H1]; [| left; exact H1].
        right. exists a. split; [left; reflexivity | reflexivity].
      * right. exists a'. split; [right; exact Hin | reflexivity].
Qed.

End CacheFacts.

(** ** Two tasks missing the cache at once *)

Section ConcurrentMisses.

Variable h : Host.

Import D365Connector.

Lemma runSync_getFo_miss (a : string) (w : World) :
  usable (oboCache w !! cacheKey h a) (clock w / 1000) = false ->
  pendingAction (fst (runSync (getFoAccessTokenFromObo h a) w))
    = Some (FetchToken (tokenUrl h) (oboParams h a))
  /\ snd (runSync (getFoAccessTokenFromObo h a) w)
    = log (ONet (FetchToken (tokenUrl h) (oboParams h a))) w
  /\ forall (reply : forall x, AsyncResult x) (w' : World) resp j,
       reply (FetchToken (tokenUrl h) (oboParams h a)) = Fetched resp ->
       ok resp = true ->
       json resp = Some j ->
       resume (fst (runSync (getFoAccessTokenFromObo h a) w)) reply w'
         = (Settled (Resolved (access_token j)),
            cacheSet (cacheKey h a)
              {| accessToken := access_token j;
                 expiresAt := clock w / 1000 + numOr (expires_in j) 3600 |} w').
Proof.
  intros Hu. unfold getFoAccessTokenFromObo. simpl.
  destruct (oboCache w !! cacheKey h a) as [c |] eqn:Hc.
  - simpl in Hu. rewrite Hu. simpl. split; [reflexivity |]. split; [reflexivity |].
    intros reply w' resp j Hr Hok Hj. rewrite Hr. simpl. rewrite Hok. simpl.
    unfold readJson. rewrite Hj. reflexivity.
  - simpl. split; [reflexivity |]. split; [reflexivity |].
    intros reply w' resp j Hr Hok Hj. rewrite Hr. simpl. rewrite Hok. simpl.
    unfold readJson. rewrite Hj. reflexivity.
Qed.

(** X16. There is no single flight.  Two tasks that ask for the same assertion
    and both find no usable entry before either reply has arrived each
    perform an exchange and each get the token of their own reply; the entry
    left in the cache is the one of the task resumed last, and its expiry
    counts from the clock reading that task took before its exchange, not
    from the time the reply arrived. *)
Theorem concurrent_misses_exchange_twice (a : string) (w : World)
    (replyA replyB : forall x, AsyncResult x) (startB arriveA arriveB : Z)
    (respA respB : Response TokenJson) (jA jB : TokenJson) :
  let call := FetchToken (tokenUrl h) (oboParams h a) in
  usable (oboCache w !! cacheKey h a) (clock w / 1000) = false ->
  usable (oboCache w !! cacheKey h a) (startB / 1000) = false ->
  replyA call = Fetched respA -> ok respA = true -> json respA = Some jA ->
  replyB call = Fetched respB -> ok respB = true -> json respB = Some jB ->
  let taskA := runSync (getFoAccessTokenFromObo h a) w in
  let taskB := runSync (getFoAccessTokenFromObo h a) (atTime startB (snd taskA)) in
  let doneA := resume (fst taskA) replyA (atTime arriveA (snd taskB)) in
  let doneB := resume (fst taskB) replyB (atTime arriveB (snd doneA)) in
  pendingAction (fst taskA) = Some call
  /\ pendingAction (fst taskB) = Some call
  /\ fst doneA = Settled (Resolved (access_token jA))
  /\ fst doneB = Settled (Resolved (access_token jB))
  /\ exchangeCalls (trace (snd doneB)) = S (S (exchangeCalls (trace w)))
  /\ oboCache (snd doneB) =
       <[cacheKey h a := {| accessToken := access_token jB;
                            expiresAt := startB / 1000 + numOr (expires_in jB) 3600 |}]>
         (oboCache w).
Proof.
  intros call HmA HmB HrA HokA HjA HrB HokB HjB taskA taskB doneA doneB.
  destruct (runSync_getFo_miss a w HmA) as (HpA & HwA & HresA).
  fold taskA in HpA, HwA, HresA.
  assert (HmB' : usable (oboCache (atTime startB (snd taskA)) !! cacheKey h a)
                   (clock (atTime startB (snd taskA)) / 1000) = false).
  { rewrite HwA. exact HmB. }
  destruct (runSync_getFo_miss a _ HmB') as (HpB & HwB & HresB).
  fold taskB in HpB, HwB, HresB.
  assert (HdA : doneA = (Settled (Resolved (access_token jA)),
                         cacheSet (cacheKey h a)
                           {| accessToken := access_token jA;
                              expiresAt := clock w / 1000 + numOr (expires_in jA) 3600 |}
                           (atTime arriveA (snd taskB))))
    by (apply (HresA replyA _ respA jA HrA HokA HjA)).
  assert (HdB : doneB = (Settled (Resolved (access_token jB)),
                         cacheSet (cacheKey h a)
                           {| accessToken := access_token jB;
                              expiresAt := startB / 1000 + numOr (expires_in jB) 3600 |}
                           (atTime arriveB (snd doneA))))
    by (apply (HresB replyB _ respB jB HrB HokB HjB)).
  split; [exact HpA |]. split; [exact HpB |].
  rewrite HdB, HdA, HwB, HwA. simpl.
  split; [reflexivity |]. split; [reflexivity |]. split.
  - rewrite !exchangeCalls_app. simpl. lia.
  - apply insert_insert_eq.
Qed.

End ConcurrentMisses.

(** ** The record routes *)

Section RouteFacts.

Variable h : Host.
Variable net : Network.

Import D365Connector.
Import D365Routes.

Lemma getRecords_footprint (req : Request) :
  Only (fun _ => True) (fun a => ~ verifies a) (getRecords h req).
Proof.
  unfold getRecords. apply Only_tryCatch; [| footprint].
  destruct (negb (Js.truthy (entityName req))); [footprint |].
  destruct (bearerOf (authorization req)) as [tok | payload]; [| footprint].
  apply Only_bind; [footprint |]. intros _.
  apply Only_bind; [| unfold readJson; footprint].
  eapply Only_weaken; [| | apply readRecord_footprint]; simpl; tauto.
Qed.

Lemma postRecords_footprint (req : Request) :
  Only (fun _ => True) (fun a => ~ verifies a) (postRecords h req).
Proof.
  unfold postRecords. apply Only_tryCatch; [| footprint].
  destruct (negb (Js.truthy (entityName req))); [footprint |].
  destruct (bearerOf (authorization req)) as [tok | payload]; [| footprint].
  apply Only_bind; [| footprint].
  eapply Only_weaken; [| | apply createRecord_footprint]; simpl; tauto.
Qed.

(** X17. The routes never verify the bearer token: no key set is contacted while
    a record request is handled, whatever the request.  A token that merely
    matches the header pattern is stored by the GET route and presented to
    the token endpoint as the assertion. *)
Theorem routes_never_verify (req : Request) (w : World) :
  verifyCalls (trace (snd (run net (handleGet h req) w))) = verifyCalls (trace w)
  /\ verifyCalls (trace (snd (run net (handlePost h req) w))) = verifyCalls (trace w)
  /\ forall token,
       bearerToken (authorization req) = Some token ->
       Js.truthy (entityName req) = true ->
       oboCache w !! cacheKey h token = None ->
       pendingAction (fst (runSync (handleGet h req) w))
         = Some (FetchToken (tokenUrl h) (oboParams h token)).
Proof.
  split; [| split].
  - apply (run_never_verifies net (fun _ => True)).
    unfold handleGet, extractTokenMiddleware.
    destruct (bearerOf (authorization req)); [| footprint].
    apply Only_bind; [footprint |]. intros _. apply getRecords_footprint.
  - apply (run_never_verifies net (fun _ => True)).
    unfold handlePost, extractTokenMiddleware.
    destruct (bearerOf (authorization req)); [| footprint].
    apply Only_bind; [footprint |]. intros _. apply postRecords_footprint.
  - intros token Hb He Hc.
    assert (Hbo : bearerOf (authorization req) = inl token).
    { unfold bearerToken in Hb. unfold bearerOf.
      destruct (authorization req) as [| a | l]; try discriminate Hb.
      destruct (Js.truthy a); [| discriminate Hb]. simpl.
      destruct (BearerPattern.exec a) as [t |]; [| discriminate Hb].
      destruct (Js.truthy t); [| discriminate Hb]. inversion Hb. reflexivity. }
    assert (Hne : token <> "").
    { unfold bearerToken in Hb.
      destruct (authorization req) as [| a | l]; try discriminate Hb.
      destruct (Js.truthy a); [| discriminate Hb].
      destruct (BearerPattern.exec a) as [t |]; [| discriminate Hb].
      destruct (Js.truthy t) eqn:Ht; [| discriminate Hb]. inversion Hb; subst.
      intros ->. discriminate Ht. }
    unfold handleGet, extractTokenMiddleware, getRecords. rewrite Hbo, He.
    unfold readRecord, fetchFo, getCurrentContext, setToken, getFoAccessTokenFromObo.
    destruct token as [| c token']; [congruence |].
    simpl. rewrite Hc. reflexivity.
Qed.

Lemma bearerOf_token (auth : HeaderValue) :
  match bearerToken auth with
  | Some token => bearerOf auth = inl token /\ token <> ""
  | None => exists payload, bearerOf auth = inr payload
  end.
Proof.
  unfold bearerToken, bearerOf. destruct auth as [| a | l]; simpl; eauto.
  destruct (Js.truthy a); simpl; eauto.
  destruct (BearerPattern.exec a) as [t |]; eauto.
  destruct (Js.truthy t) eqn:Ht; eauto.
  split; [reflexivity |]. intros ->. discriminate Ht.
Qed.






(** X19. A POST handled while the shared field is empty (no GET has been served
    yet) fails whatever bearer token it carries: no network call is made and
    the answer is 500 with an empty object, the rejection reason being a
    string without [message]. *)
Theorem post_before_any_get_fails (req : Request) (w : World) (token : string) :
  userToken w = "" ->
  bearerToken (authorization req) = Some token ->
  Js.truthy (entityName req) = true ->
  run net (handlePost h req) w =
    (Resolved tt,
     log (OResponse 500 (JObj []))
       (log (OConsole "Error creating record:" None) (log (ONext None) w))).
Proof.
  intros Hu Hb He.
  pose proof (bearerOf_token (authorization req)) as Hbo. rewrite Hb in Hbo.
  destruct Hbo as (Hbo & _).
  unfold handlePost, extractTokenMiddleware, postRecords. rewrite Hbo, He.
  rewrite run_bind.
  change (run net (do (Next None)) w) with (Resolved tt, log (ONext None) w).
  cbv iota beta. cbn [negb]. rewrite run_tryCatch, run_bind.
  unfold createRecord. rewrite run_bind.
  rewrite (run_fetchFo_missing h net) by exact Hu.
  reflexivity.
Qed.

Lemma getRecords_rest_footprint (req : Request) :
  Only (fun a => ~ writesUserToken a) (fun _ => True)
    (response <- readRecord h (entityName req) (query req) ;;
     data <- readJson response ;;
     do (Respond 200 data)).
Proof.
  apply Only_bind; [| unfold readJson; footprint].
  eapply Only_weaken; [| | apply readRecord_footprint]; simpl; tauto.
Qed.

Lemma postRecords_keeps_footprint (req : Request) :
  Only (fun a => ~ writesUserToken a) (fun _ => True) (postRecords h req).
Proof.
  unfold postRecords. apply Only_tryCatch; [| footprint].
  destruct (negb (Js.truthy (entityName req))); [footprint |].
  destruct (bearerOf (authorization req)) as [tok | payload]; [| footprint].
  apply Only_bind; [| footprint].
  eapply Only_weaken; [| | apply createRecord_footprint]; simpl; tauto.
Qed.

(** X20. The GET route leaves the token of its request in the shared field when
    the request is over, whether the read succeeded or failed; the POST
    route and the rejected requests leave the field as they found it. *)
Theorem get_route_leaves_its_token (req : Request) (w : World) :
  userToken (snd (run net (handleGet h req) w)) =
    match bearerToken (authorization req) with
    | Some token => if Js.truthy (entityName req) then token else userToken w
    | None => userToken w
    end
  /\ userToken (snd (run net (handlePost h req) w)) = userToken w.
Proof.
  split.
  - pose proof (bearerOf_token (authorization req)) as Hb.
    unfold handleGet, extractTokenMiddleware.
    destruct (bearerToken (authorization req)) as [token |].
    + destruct Hb as (Hbo & _). rewrite Hbo, run_bind.
      change (run net (do (Next None)) w) with (Resolved tt, log (ONext None) w).
      cbv iota beta. unfold getRecords. rewrite Hbo, run_tryCatch.
      destruct (Js.truthy (entityName req)); cbn [negb]; [| reflexivity].
      rewrite run_bind.
      change (run net (setToken token) (log (ONext None) w))
        with (Resolved tt, writeUserToken token (log (ONext None) w)).
      cbv iota beta.
      pose proof (run_keeps_userToken net (fun _ => True) _
                    (writeUserToken token (log (ONext None) w))
                    (getRecords_rest_footprint req)) as Hk.
      cbn [userToken writeUserToken] in Hk.
      destruct (run net _ (writeUserToken token (log (ONext None) w)))
        as [[u | e] w1]; cbn [snd] in Hk; [exact Hk |].
      cbn. exact Hk.
    + destruct Hb as (payload & Hbo). rewrite Hbo. reflexivity.
  - apply (run_keeps_userToken net (fun _ => True)).
    unfold handlePost, extractTokenMiddleware.
    destruct (bearerOf (authorization req)); [| footprint].
    apply Only_bind; [footprint |]. intros _. apply postRecords_keeps_footprint.
Qed.

End RouteFacts.

(** ** Concrete runs of the further properties *)


Lemma downstream_content_type_witness :
  let h := Sample.host in
  let net := Sample.mintingNet (Some 3600) 200 in
  let w := Sample.worldOf "tokA.a.a" in
  let w1 := snd (run net (D365Connector.getFoAccessTokenFromObo h (userToken w)) w) in
  (exists rq,
     trace (snd (run net (D365Connector.fetchFo h "data/EmployeesV2"
                            (Some Scenario.patchInit)) w))
       = (trace w1 ++ [ONet (FetchFo "https://fo.example/data/EmployeesV2" rq)])%list
     /\ Headers.getFrom "content-type" (headers rq) = Some "text/plain")
  /\ (exists rq,
        trace (snd (run net (D365Connector.fetchFo h "data/EmployeesV2"
                               (Some Scenario.blankInit)) w))
          = (trace w1 ++ [ONet (FetchFo "https://fo.example/data/EmployeesV2" rq)])%list
        /\ Headers.getFrom "content-type" (headers rq) = Some "application/json").
Proof.
  intros h net w w1.
  assert (Hu : userToken w <> "") by discriminate.
  assert (Hget : run net (D365Connector.getFoAccessTokenFromObo h (userToken w)) w
                 = (Resolved "fo-for-tokA.a.a", w1)) by (vm_compute; reflexivity).
  split.
  - destruct (downstream_content_type h net "data/EmployeesV2" (Some Scenario.patchInit)
                w w1 "fo-for-tokA.a.a"
                [("AUTHORIZATION", "Basic abc"); ("content-type", "text/plain")]
                Hu Hget eq_refl eq_refl) as (rq & Htr & Hct).
    exists rq. split; [exact Htr | exact Hct].
  - destruct (downstream_content_type h net "data/EmployeesV2" (Some Scenario.blankInit)
                w w1 "fo-for-tokA.a.a" [("Content-Type", "")]
                Hu Hget eq_refl eq_refl) as (rq & Htr & Hct).
    exists rq. split; [exact Htr | exact Hct].
Defined.

Lemma exchange_failure_raises_in_every_operation_witness :
  let w := Sample.worldOf "tokA.a.a" in
  fst (run Sample.refusingNet
         (D365Connector.createRecord Sample.host "EmployeesV2" JNull) w)
    = Rejected (Reason "OBO token exchange failed: 400 invalid_grant")
  /\ foAuthorizations
       (trace (snd (run Sample.refusingNet
                      (D365Connector.createRecord Sample.host "EmployeesV2" JNull) w)))
     = [].
Proof.
  intros w.
  destruct (exchange_failure_raises_in_every_operation Sample.host Sample.refusingNet
              "EmployeesV2" "k" None JNull w (Sample.response 400 "invalid_grant" None))
    as (Hc & _).
  - discriminate.
  - vm_compute; reflexivity.
  - reflexivity.
  - reflexivity.
  - rewrite Hc. split; reflexivity.
Defined.

Lemma success_body_is_parsed_by_writes_only_witness :
  let h := Sample.host in
  let w := Sample.worldOf "tokA.a.a" in
  fst (run Scenario.noContentNet
         (D365Connector.deleteRecord h "EmployeesV2" "PersonnelNumber='123'") w)
    = Rejected (Foreign "SyntaxError")
  /\ fst (run Scenario.noContentNet (D365Connector.readRecord h "EmployeesV2" None) w)
    = Resolved (Sample.response 204 "" None).
Proof.
  intros h w.
  set (resp := Sample.response 204 "" (@None Json)).
  assert (Hok : ok resp = true) by reflexivity.
  split.
  - set (w1 := snd (run Scenario.noContentNet
                      (D365Connector.fetchFo h
                         ("/data/" +:+ "EmployeesV2" +:+ "(" +:+ "PersonnelNumber='123'" +:+ ")")
                         (Some {| method := "DELETE"; headers := []; body := None |})) w)).
    destruct (success_body_is_parsed_by_writes_only h Scenario.noContentNet "EmployeesV2"
                "PersonnelNumber='123'" None JNull w w1 resp Hok) as (_ & _ & Hdel & _).
    rewrite Hdel; [reflexivity | vm_compute; reflexivity].
  - set (w1 := snd (run Scenario.noContentNet
                      (D365Connector.fetchFo h ("/data/" +:+ "EmployeesV2")
                         (Some {| method := "GET"; headers := []; body := None |})) w)).
    destruct (success_body_is_parsed_by_writes_only h Scenario.noContentNet "EmployeesV2"
                "PersonnelNumber='123'" None JNull w w1 resp Hok) as (_ & _ & _ & Hread).
    rewrite Hread; [reflexivity | vm_compute; reflexivity].
Defined.

Lemma cache_refresh_stores_new_token_witness :
  let h := Sample.host in
  let net := Sample.mintingNet (Some 900) 200 in
  let stale := {| accessToken := "old"; expiresAt := 1700000060 |} in
  let w := cacheSet (D365Connector.cacheKey h "tokA.a.a") stale Sample.world0 in
  let result := run net (D365Connector.getFoAccessTokenFromObo h "tokA.a.a") w in
  D365Connector.usable (oboCache w !! D365Connector.cacheKey h "tokA.a.a")
    (clock w / 1000) = false
  /\ fst result = Resolved "fo-for-tokA.a.a"
  /\ exchangeCalls (trace (snd result)) = 1%nat
  /\ oboCache (snd result) !! D365Connector.cacheKey h "tokA.a.a"
     = Some {| accessToken := "fo-for-tokA.a.a"; expiresAt := 1700000900 |}.
Proof.
  intros h net stale w result.
  assert (Hmiss : D365Connector.usable
                    (oboCache w !! D365Connector.cacheKey h "tokA.a.a")
                    (clock w / 1000) = false) by (vm_compute; reflexivity).
  destruct (cache_refresh_stores_new_token h net "tokA.a.a" w
              (Sample.response 200 "{...}"
                 (Some {| access_token := "fo-for-tokA.a.a"; expires_in := Some 900 |}))
              {| access_token := "fo-for-tokA.a.a"; expires_in := Some 900 |}
              Hmiss eq_refl eq_refl eq_refl)
    as (Htok & _ & Hcalls & _ & Hentry); [discriminate |].
  split; [exact Hmiss |]. split; [exact Htok |]. split; [exact Hcalls | exact Hentry].
Defined.

Lemma cache_validity_window_witness :
  let h := Sample.host in
  let net := Sample.mintingNet (Some 3600) 200 in
  let w1 := snd (run net (D365Connector.getFoAccessTokenFromObo h "tokA.a.a")
                   Sample.world0) in
  fst (run net (D365Connector.getFoAccessTokenFromObo h "tokA.a.a")
         (atTime 1700003539999 w1)) = Resolved "fo-for-tokA.a.a"
  /\ exchangeCalls (trace (snd (run net (D365Connector.getFoAccessTokenFromObo h "tokA.a.a")
                                  (atTime 1700003539999 w1)))) = 1%nat
  /\ exchangeCalls (trace (snd (run net (D365Connector.getFoAccessTokenFromObo h "tokA.a.a")
                                  (atTime 1700003540000 w1)))) = 2%nat.
Proof.
  intros h net w1.
  set (j := {| access_token := "fo-for-tokA.a.a"; expires_in := Some 3600 |}).
  assert (Hmiss : D365Connector.usable
                    (oboCache Sample.world0 !! D365Connector.cacheKey h "tokA.a.a")
                    (clock Sample.world0 / 1000) = false) by (vm_compute; reflexivity).
  destruct (cache_validity_window h net "tokA.a.a" Sample.world0
              (Sample.response 200 "{...}" (Some j)) j 1700003539999
              Hmiss eq_refl eq_refl eq_refl) as (Hhit & _).
  destruct (cache_validity_window h net "tokA.a.a" Sample.world0
              (Sample.response 200 "{...}" (Some j)) j 1700003540000
              Hmiss eq_refl eq_refl eq_refl) as (_ & Hagain).
  fold w1 in Hhit, Hagain.
  rewrite Hhit by (vm_compute; reflexivity).
  rewrite Hagain by (vm_compute; discriminate).
  split; [reflexivity |]. split; vm_compute; reflexivity.
Defined.

Lemma short_lived_token_never_served_witness :
  let h := Sample.host in
  let net := Sample.mintingNet (Some 60) 200 in
  let w1 := snd (run net (D365Connector.getFoAccessTokenFromObo h "tokA.a.a")
                   Sample.world0) in
  exchangeCalls (trace (snd (run net (D365Connector.getFoAccessTokenFromObo h "tokA.a.a")
                               (atTime (clock Sample.world0) w1)))) = 2%nat.
Proof.
  intros h net w1.
  set (j := {| access_token := "fo-for-tokA.a.a"; expires_in := Some 60 |}).
  assert (Hmiss : D365Connector.usable
                    (oboCache Sample.world0 !! D365Connector.cacheKey h "tokA.a.a")
                    (clock Sample.world0 / 1000) = false) by (vm_compute; reflexivity).
  destruct (short_lived_token_never_served h net "tokA.a.a" Sample.world0
              (Sample.response 200 "{...}" (Some j)) j 60 (clock Sample.world0)
              Hmiss eq_refl eq_refl eq_refl eq_refl) as (_ & Hagain); try lia.
  fold w1 in Hagain. rewrite Hagain. vm_compute. reflexivity.
Defined.

Lemma cache_never_evicts_witness :
  let h := Sample.host in
  let net := Sample.mintingNet (Some 900) 200 in
  let w' := runCalls h net Scenario.calls Sample.world0 in
  size (oboCache w') = 2%nat
  /\ (size (oboCache w') <= size (oboCache Sample.world0) + 3)%nat
  /\ (is_Some (oboCache w' !! D365Connector.cacheKey h "tokB.b.b") ->
      is_Some (oboCache Sample.world0 !! D365Connector.cacheKey h "tokB.b.b")
      \/ exists a, In a (map fst Scenario.calls)
                   /\ D365Connector.cacheKey h "tokB.b.b" = D365Connector.cacheKey h a).
Proof.
  intros h net w'.
  destruct (cache_never_evicts h net Scenario.calls Sample.world0) as (_ & Hsize & Hnew).
  split; [vm_compute; reflexivity |]. split; [exact Hsize |].
  apply Hnew.
Defined.

Lemma concurrent_misses_exchange_twice_witness :
  let h := Sample.host in
  let replyA := fun x => answer (Sample.mintingNet (Some 3600) 200) x [] in
  let replyB := fun x => answer (Sample.mintingNet (Some 900) 200) x [] in
  let taskA := runSync (D365Connector.getFoAccessTokenFromObo h "tokA.a.a") Sample.world0 in
  let taskB := runSync (D365Connector.getFoAccessTokenFromObo h "tokA.a.a")
                 (atTime 1700000001000 (snd taskA)) in
  let doneA := resume (fst taskA) replyA (atTime 1700000002000 (snd taskB)) in
  let doneB := resume (fst taskB) replyB (atTime 1700000003000 (snd doneA)) in
  exchangeCalls (trace (snd doneB)) = 2%nat
  /\ oboCache (snd doneB) !! D365Connector.cacheKey h "tokA.a.a"
     = Some {| accessToken := "fo-for-tokA.a.a"; expiresAt := 1700000901 |}.
Proof.
  intros h replyA replyB taskA taskB doneA doneB.
  set (jA := {| access_token := "fo-for-tokA.a.a"; expires_in := Some 3600 |}).
  set (jB := {| access_token := "fo-for-tokA.a.a"; expires_in := Some 900 |}).
  destruct (concurrent_misses_exchange_twice h "tokA.a.a" Sample.world0 replyA replyB
              1700000001000 1700000002000 1700000003000
              (Sample.response 200 "{...}" (Some jA))
              (Sample.response 200 "{...}" (Some jB)) jA jB)
    as (_ & _ & _ & _ & Hcalls & Hcache); try reflexivity.
  fold taskA taskB doneA doneB in Hcalls, Hcache.
  split; [exact Hcalls |]. rewrite Hcache, lookup_insert_eq. reflexivity.
Defined.

Lemma routes_never_verify_witness :
  let h := Sample.host in
  bearerToken (authorization Sample.requestA) = Some "tokA.a.a"
  /\ pendingAction (fst (runSync (D365Routes.handleGet h Sample.requestA) Sample.world0))
     = Some (FetchToken (D365Connector.tokenUrl h) (D365Connector.oboParams h "tokA.a.a")).
Proof.
  intros h. split; [reflexivity |].
  destruct (routes_never_verify h Sample.forgedNet Sample.requestA Sample.world0)
    as (_ & _ & Hpending).
  apply Hpending; reflexivity.
Defined.

Lemma post_before_any_get_fails_witness :
  userToken Sample.world0 = ""
  /\ responses (trace (snd (run (Sample.mintingNet (Some 3600) 200)
                              (D365Routes.handlePost Sample.host Sample.requestB)
                              Sample.world0)))
     = [(500%N, JObj [])].
Proof.
  split; [reflexivity |].
  rewrite (post_before_any_get_fails Sample.host (Sample.mintingNet (Some 3600) 200)
             Sample.requestB Sample.world0 "tokB.b.b" eq_refl eq_refl eq_refl).
  reflexivity.
Defined.
